(** * Bundle service (pkg/server/api/bundle/v1/service.go)

    A shallow embedding of the v1 bundle service: the mask projector
    [applyBundleMask], the delete-mode resolver [parseDeleteMode], the
    per-item handlers of the batch operations and the single-item
    operations, written in a small state monad over the collaborators the
    service talks to (datastore, upstream publisher, rate limiter). *)

From Stdlib Require Import ZArith NArith List String Ascii Bool.
From Stdlib Require Import DecimalString DecimalZ.
Import ListNotations.
Local Open Scope string_scope.

Set Implicit Arguments.

(** ** google.golang.org/grpc/codes

    [codes.Code] is a [uint32]; the constants are those of the package. *)
Module codes.
Definition Code := N.
Definition OK : Code := 0%N.
Definition Canceled : Code := 1%N.
Definition Unknown : Code := 2%N.
Definition InvalidArgument : Code := 3%N.
Definition DeadlineExceeded : Code := 4%N.
Definition NotFound : Code := 5%N.
Definition AlreadyExists : Code := 6%N.
Definition PermissionDenied : Code := 7%N.
Definition ResourceExhausted : Code := 8%N.
Definition FailedPrecondition : Code := 9%N.
Definition Aborted : Code := 10%N.
Definition OutOfRange : Code := 11%N.
Definition Unimplemented : Code := 12%N.
Definition Internal : Code := 13%N.
Definition Unavailable : Code := 14%N.
Definition DataLoss : Code := 15%N.
Definition Unauthenticated : Code := 16%N.
End codes.

(** ** Go errors

    A non-nil [error] is either one built by [status.Error(c, msg)] or any
    other error ([fmt.Errorf], [errors.New]).  [status.Error] returns nil for
    [codes.OK], so the code carried by a status error is a non-zero [uint32]:
    it is kept as a [positive].  A possibly-nil [error] is an [option error]. *)
Inductive error : Type :=
| StatusError (c : positive) (msg : string)
| PlainError (msg : string).

Module status.
(** [status.Code(err)]: [codes.OK] for nil, the carried code for a status
    error, [codes.Unknown] for every other error. *)
Definition Code (err : option error) : codes.Code :=
  match err with
  | None => codes.OK
  | Some (StatusError c _) => Npos c
  | Some (PlainError _) => codes.Unknown
  end.
End status.

(** A Go call returning [(resp, err)] with exactly one of the two set. *)
Definition result (A : Type) : Type := (A + error)%type.

(** ** spire-api-sdk [types] *)
Module types.
Record X509Certificate : Type := mkX509Certificate {
  Asn1 : list Byte.byte
}.

Record JWTKey : Type := mkJWTKey {
  PublicKey : list Byte.byte;
  KeyId : string;
  ExpiresAt : Z
}.

Record Bundle : Type := mkBundle {
  TrustDomain : string;
  RefreshHint : Z;
  SequenceNumber : Z;
  X509Authorities : list X509Certificate;
  JwtAuthorities : list JWTKey
}.

(** The four selectors of [types.BundleMask]; a nil mask pointer is
    [None : option BundleMask]. *)
Record BundleMask : Type := mkBundleMask {
  MaskRefreshHint : bool;
  MaskSequenceNumber : bool;
  MaskX509Authorities : bool;
  MaskJwtAuthorities : bool
}.
End types.

(** ** [proto/spire/common] *)
Module common.
Record Certificate : Type := mkCertificate {
  DerBytes : list Byte.byte
}.

Record PublicKey : Type := mkPublicKey {
  PkixBytes : list Byte.byte;
  Kid : string;
  NotAfter : Z
}.

Record Bundle : Type := mkBundle {
  TrustDomainId : string;
  RootCas : list Certificate;
  JwtSigningKeys : list PublicKey;
  RefreshHint : Z
}.

Record BundleMask : Type := mkBundleMask {
  MaskRootCas : bool;
  MaskJwtSigningKeys : bool;
  MaskRefreshHint : bool
}.
End common.

(** ** go-spiffe [spiffeid] *)
Module spiffeid.
(** [spiffeid.TrustDomain] wraps the canonical name of the domain. *)
Record TrustDomain : Type := mkTrustDomain {
  name : string
}.

(** [td.String()] *)
Definition String (td : TrustDomain) : string := name td.

(** [td.IDString()] *)
Definition IDString (td : TrustDomain) : string := "spiffe://" ++ name td.

(** [td.Compare(other)]: [strings.Compare] on the names. *)
Definition Compare (td other : TrustDomain) : Z :=
  match String.compare (name td) (name other) with
  | Eq => 0
  | Lt => -1
  | Gt => 1
  end%Z.

(** [spiffeid.TrustDomainFromString], the parser of the Trust Domain
    Validator, taken as a parameter: a canonical trust domain or an error. *)
Class Parser : Type := {
  TrustDomainFromString : string -> result TrustDomain
}.
End spiffeid.

(** ** [pkg/server/api] status helpers *)
Module api.
(** Modelled from the spec: [api.MakeErr], [api.MakeStatus] and [api.OK]
    (pkg/server/api, not part of the sources at hand).  Following section 9,
    their result is a tagged value carrying a discriminant (the status
    code), the contextual message and the optional underlying cause. *)
Record Status : Type := mkStatus {
  Code : codes.Code;
  Message : string;
  Cause : option error
}.

(** Modelled from the spec: [api.MakeErr(log, code, msg, err)], the gRPC
    error of that code with the contextual message, wrapping the cause. *)
Definition MakeErr (code : codes.Code) (msg : string) (err : option error)
  : Status := mkStatus code msg err.

(** Modelled from the spec: [api.MakeStatus(log, code, msg, err)], the same
    as a per-item [types.Status]. *)
Definition MakeStatus (code : codes.Code) (msg : string) (err : option error)
  : Status := mkStatus code msg err.

(** Modelled from the spec: [api.OK()], the success status. *)
Definition OK : Status := mkStatus codes.OK "OK" None.

(** The authority and bundle converters of [pkg/server/api], taken as
    parameters; each may fail with a conversion error. *)
Class Converters : Type := {
  ProtoToBundle : types.Bundle -> result common.Bundle;
  BundleToProto : option common.Bundle -> result types.Bundle;
  ParseJWTAuthorities : list types.JWTKey -> result (list common.PublicKey);
  ParseX509Authorities :
    list types.X509Certificate -> result (list common.Certificate);
  PublicKeysToProto : list common.PublicKey -> list types.JWTKey;
  ProtoToBundleMask : option types.BundleMask -> option common.BundleMask
}.
End api.

(** A gRPC handler returning [(resp, err)]: a response or the error status
    built by [api.MakeErr]. *)
Definition rpc (A : Type) : Type := (A + api.Status)%type.

(** ** [pkg/server/plugin/datastore] *)
Module datastore.
(** [DeleteBundleRequest_Mode], a proto enum ([int32]). *)
Definition DeleteBundleRequest_Mode := Z.
Definition DeleteBundleRequest_RESTRICT : DeleteBundleRequest_Mode := 0%Z.
Definition DeleteBundleRequest_DELETE : DeleteBundleRequest_Mode := 1%Z.
Definition DeleteBundleRequest_DISSOCIATE : DeleteBundleRequest_Mode := 2%Z.

Record Pagination : Type := mkPagination {
  Token : string;
  PageSize : Z
}.

Record FetchBundleRequest : Type := mkFetchBundleRequest {
  FetchTrustDomainId : string
}.
Record FetchBundleResponse : Type := mkFetchBundleResponse {
  FetchedBundle : option common.Bundle
}.

Record ListBundlesRequest : Type := mkListBundlesRequest {
  ListReqPagination : option Pagination
}.
Record ListBundlesResponse : Type := mkListBundlesResponse {
  Bundles : list common.Bundle;
  ListRespPagination : option Pagination
}.

Record CreateBundleRequest : Type := mkCreateBundleRequest {
  CreateBundle_Bundle : common.Bundle
}.
Record CreateBundleResponse : Type := mkCreateBundleResponse {
  CreatedBundle : option common.Bundle
}.

Record UpdateBundleRequest : Type := mkUpdateBundleRequest {
  UpdateBundle_Bundle : common.Bundle;
  InputMask : option common.BundleMask
}.
Record UpdateBundleResponse : Type := mkUpdateBundleResponse {
  UpdatedBundle : option common.Bundle
}.

Record SetBundleRequest : Type := mkSetBundleRequest {
  SetBundle_Bundle : common.Bundle
}.
Record SetBundleResponse : Type := mkSetBundleResponse {
  SetBundle_Result : option common.Bundle
}.

Record AppendBundleRequest : Type := mkAppendBundleRequest {
  AppendBundle_Bundle : common.Bundle
}.
Record AppendBundleResponse : Type := mkAppendBundleResponse {
  AppendedBundle : option common.Bundle
}.

Record DeleteBundleRequest : Type := mkDeleteBundleRequest {
  DeleteTrustDomainId : string;
  Mode : DeleteBundleRequest_Mode
}.
Record DeleteBundleResponse : Type := mkDeleteBundleResponse {
  DeletedBundle : option common.Bundle
}.

(** The part of the [datastore.DataStore] interface the service uses, over
    an abstract store state [DS]: every method returns the next state and
    the Go [(resp, err)] pair. *)
Class DataStore (DS : Type) : Type := {
  CountBundles : DS -> DS * result Z;
  FetchBundle : DS -> FetchBundleRequest -> DS * result FetchBundleResponse;
  ListBundles : DS -> ListBundlesRequest -> DS * result ListBundlesResponse;
  CreateBundle : DS -> CreateBundleRequest -> DS * result CreateBundleResponse;
  UpdateBundle : DS -> UpdateBundleRequest -> DS * result UpdateBundleResponse;
  SetBundle : DS -> SetBundleRequest -> DS * result SetBundleResponse;
  AppendBundle : DS -> AppendBundleRequest -> DS * result AppendBundleResponse;
  DeleteBundle : DS -> DeleteBundleRequest -> DS * result DeleteBundleResponse
}.
End datastore.

(** [UpstreamPublisher]: the publisher interface of the service. *)
Class UpstreamPublisher (UP : Type) : Type := {
  PublishJWTKey : UP -> common.PublicKey -> UP * result (list common.PublicKey)
}.

(** The rate limiter reached through [rpccontext.RateLimit(ctx, count)]. *)
Class RateLimiter (RL : Type) : Type := {
  RateLimit : RL -> Z -> RL * option error
}.


(** ** spire-api-sdk [bundlev1] *)
Module bundlev1.
(** [BatchDeleteFederatedBundleRequest_Mode], a proto enum ([int32]). *)
Definition BatchDeleteFederatedBundleRequest_Mode := Z.
Definition BatchDeleteFederatedBundleRequest_RESTRICT
  : BatchDeleteFederatedBundleRequest_Mode := 0%Z.
Definition BatchDeleteFederatedBundleRequest_DELETE
  : BatchDeleteFederatedBundleRequest_Mode := 1%Z.
Definition BatchDeleteFederatedBundleRequest_DISSOCIATE
  : BatchDeleteFederatedBundleRequest_Mode := 2%Z.

(** [strconv.Itoa] on the enum number. *)
Definition Itoa (n : Z) : string := NilEmpty.string_of_int (Z.to_int n).

(** [mode.String()]: the name of a declared enumerator, the decimal number
    of any other value. *)
Definition Mode_String (mode : BatchDeleteFederatedBundleRequest_Mode) : string :=
  if Z.eqb mode BatchDeleteFederatedBundleRequest_RESTRICT then "RESTRICT"
  else if Z.eqb mode BatchDeleteFederatedBundleRequest_DELETE then "DELETE"
  else if Z.eqb mode BatchDeleteFederatedBundleRequest_DISSOCIATE then "DISSOCIATE"
  else Itoa mode.

Record CountBundlesResponse : Type := mkCountBundlesResponse {
  Count : Z
}.

Record GetBundleRequest : Type := mkGetBundleRequest {
  GetBundle_OutputMask : option types.BundleMask
}.

Record AppendBundleRequest : Type := mkAppendBundleRequest {
  X509Authorities : list types.X509Certificate;
  JwtAuthorities : list types.JWTKey;
  AppendBundle_OutputMask : option types.BundleMask
}.

Record PublishJWTAuthorityRequest : Type := mkPublishJWTAuthorityRequest {
  JwtAuthority : option types.JWTKey
}.
Record PublishJWTAuthorityResponse : Type := mkPublishJWTAuthorityResponse {
  Published_JwtAuthorities : list types.JWTKey
}.

Record ListFederatedBundlesRequest : Type := mkListFederatedBundlesRequest {
  PageSize : Z;
  PageToken : string;
  List_OutputMask : option types.BundleMask
}.
Record ListFederatedBundlesResponse : Type := mkListFederatedBundlesResponse {
  Bundles : list types.Bundle;
  NextPageToken : string
}.

Record GetFederatedBundleRequest : Type := mkGetFederatedBundleRequest {
  TrustDomain : string;
  GetFederated_OutputMask : option types.BundleMask
}.

(** The per-item result of the create, update and set batches
    ([Batch*FederatedBundleResponse_Result]): a status and the bundle. *)
Record BundleResult : Type := mkBundleResult {
  Status : api.Status;
  Bundle : option types.Bundle
}.
Definition BatchCreateFederatedBundleResponse_Result := BundleResult.
Definition BatchUpdateFederatedBundleResponse_Result := BundleResult.
Definition BatchSetFederatedBundleResponse_Result := BundleResult.

(** [BatchDeleteFederatedBundleResponse_Result] *)
Record BatchDeleteFederatedBundleResponse_Result : Type := mkDeleteResult {
  Delete_Status : api.Status;
  Delete_TrustDomain : string
}.

Record BatchCreateFederatedBundleRequest : Type := mkBatchCreateRequest {
  Create_Bundle : list types.Bundle;
  Create_OutputMask : option types.BundleMask
}.
Record BatchCreateFederatedBundleResponse : Type := mkBatchCreateResponse {
  Create_Results : list BatchCreateFederatedBundleResponse_Result
}.

Record BatchUpdateFederatedBundleRequest : Type := mkBatchUpdateRequest {
  Update_Bundle : list types.Bundle;
  Update_InputMask : option types.BundleMask;
  Update_OutputMask : option types.BundleMask
}.
Record BatchUpdateFederatedBundleResponse : Type := mkBatchUpdateResponse {
  Update_Results : list BatchUpdateFederatedBundleResponse_Result
}.

Record BatchSetFederatedBundleRequest : Type := mkBatchSetRequest {
  Set_Bundle : list types.Bundle;
  Set_OutputMask : option types.BundleMask
}.
Record BatchSetFederatedBundleResponse : Type := mkBatchSetResponse {
  Set_Results : list BatchSetFederatedBundleResponse_Result
}.

Record BatchDeleteFederatedBundleRequest : Type := mkBatchDeleteRequest {
  TrustDomains : list string;
  Mode : BatchDeleteFederatedBundleRequest_Mode
}.
Record BatchDeleteFederatedBundleResponse : Type := mkBatchDeleteResponse {
  Delete_Results : list BatchDeleteFederatedBundleResponse_Result
}.
End bundlev1.

(** ** The pure helpers of the service *)

(** [fmt.Sprintf("%q", s)] on a string without characters to escape. *)
Definition quote (s : string) : string :=
  String "034"%char (s ++ String "034"%char EmptyString).

(** [parseDeleteMode]: Go returns the pair [(mode, err)]. *)
Definition parseDeleteMode (mode : bundlev1.BatchDeleteFederatedBundleRequest_Mode)
  : datastore.DeleteBundleRequest_Mode * option error :=
  if Z.eqb mode bundlev1.BatchDeleteFederatedBundleRequest_RESTRICT then
    (datastore.DeleteBundleRequest_RESTRICT, None)
  else if Z.eqb mode bundlev1.BatchDeleteFederatedBundleRequest_DISSOCIATE then
    (datastore.DeleteBundleRequest_DISSOCIATE, None)
  else if Z.eqb mode bundlev1.BatchDeleteFederatedBundleRequest_DELETE then
    (datastore.DeleteBundleRequest_DELETE, None)
  else
    (datastore.DeleteBundleRequest_RESTRICT,
     Some (PlainError ("unhandled delete mode " ++ quote (bundlev1.Mode_String mode)))).

(** [applyBundleMask]: the Go function mutates [b] in place; here it returns
    the bundle as it stands after the call. *)
Definition applyBundleMask (b : types.Bundle) (mask : option types.BundleMask)
  : types.Bundle :=
  match mask with
  | None => b
  | Some m =>
      let b1 :=
        if negb (types.MaskRefreshHint m) then
          types.mkBundle (types.TrustDomain b) 0 (types.SequenceNumber b)
            (types.X509Authorities b) (types.JwtAuthorities b)
        else b in
      let b2 :=
        if negb (types.MaskSequenceNumber m) then
          types.mkBundle (types.TrustDomain b1) (types.RefreshHint b1) 0
            (types.X509Authorities b1) (types.JwtAuthorities b1)
        else b1 in
      let b3 :=
        if negb (types.MaskX509Authorities m) then
          types.mkBundle (types.TrustDomain b2) (types.RefreshHint b2)
            (types.SequenceNumber b2) [] (types.JwtAuthorities b2)
        else b2 in
      if negb (types.MaskJwtAuthorities m) then
        types.mkBundle (types.TrustDomain b3) (types.RefreshHint b3)
          (types.SequenceNumber b3) (types.X509Authorities b3) []
      else b3
  end.

(** ** The world the service runs in

    The handlers are stateful only through their collaborators.  A [World]
    holds the state of the datastore, of the upstream publisher and of the
    rate limiter, and the list of collaborator calls made so far, oldest
    first.  Logging is not modelled. *)
Inductive Event : Type :=
| EvCountBundles
| EvFetchBundle (req : datastore.FetchBundleRequest)
| EvListBundles (req : datastore.ListBundlesRequest)
| EvCreateBundle (req : datastore.CreateBundleRequest)
| EvUpdateBundle (req : datastore.UpdateBundleRequest)
| EvSetBundle (req : datastore.SetBundleRequest)
| EvAppendBundle (req : datastore.AppendBundleRequest)
| EvDeleteBundle (req : datastore.DeleteBundleRequest)
| EvPublishJWTKey (jwtKey : common.PublicKey)
| EvRateLimit (count : Z).

Definition isDataStoreCall (e : Event) : bool :=
  match e with
  | EvPublishJWTKey _ | EvRateLimit _ => false
  | _ => true
  end.

Definition isPublisherCall (e : Event) : bool :=
  match e with
  | EvPublishJWTKey _ => true
  | _ => false
  end.

Record World (DS UP RL : Type) : Type := mkWorld {
  ds : DS;
  up : UP;
  limiter : RL;
  calls : list Event
}.

(** The configuration a [Service] keeps besides its collaborators. *)
Record Service : Type := mkService {
  td : spiffeid.TrustDomain
}.

(** A state monad over the world. *)
Definition M (W A : Type) : Type := W -> A * W.

Definition ret {W A : Type} (a : A) : M W A := fun w => (a, w).

Definition bind {W A B : Type} (m : M W A) (k : A -> M W B) : M W B :=
  fun w => let (a, w') := m w in k a w'.

Notation "x <- c ;; k" := (bind c (fun x => k))
  (at level 61, c at next level, right associativity).

(** The loop shared by the four batch operations:
    [for _, x := range xs { results = append(results, f(x)) }]. *)
Fixpoint rangeAppend {W A B : Type} (f : A -> M W B) (xs : list A)
  (results : list B) : M W (list B) :=
  match xs with
  | [] => ret results
  | x :: rest => r <- f x ;; rangeAppend f rest (results ++ [r])
  end.

(** ** The service *)
Section Service.
Context {DS UP RL : Type}.
Context {dataStore : datastore.DataStore DS}.
Context {publisher : UpstreamPublisher UP}.
Context {rateLimiter : RateLimiter RL}.
Context {parser : spiffeid.Parser}.
Context {converters : api.Converters}.

Local Abbreviation W := (World DS UP RL).

(** *** Collaborator calls: run the call, keep the new state, log the call *)
Definition dsCountBundles : M W (result Z) := fun w =>
  let (d, r) := datastore.CountBundles (ds w) in
  (r, mkWorld d (up w) (limiter w) (calls w ++ [EvCountBundles])).

Definition dsFetchBundle (req : datastore.FetchBundleRequest)
  : M W (result datastore.FetchBundleResponse) := fun w =>
  let (d, r) := datastore.FetchBundle (ds w) req in
  (r, mkWorld d (up w) (limiter w) (calls w ++ [EvFetchBundle req])).

Definition dsListBundles (req : datastore.ListBundlesRequest)
  : M W (result datastore.ListBundlesResponse) := fun w =>
  let (d, r) := datastore.ListBundles (ds w) req in
  (r, mkWorld d (up w) (limiter w) (calls w ++ [EvListBundles req])).

Definition dsCreateBundle (req : datastore.CreateBundleRequest)
  : M W (result datastore.CreateBundleResponse) := fun w =>
  let (d, r) := datastore.CreateBundle (ds w) req in
  (r, mkWorld d (up w) (limiter w) (calls w ++ [EvCreateBundle req])).

Definition dsUpdateBundle (req : datastore.UpdateBundleRequest)
  : M W (result datastore.UpdateBundleResponse) := fun w =>
  let (d, r) := datastore.UpdateBundle (ds w) req in
  (r, mkWorld d (up w) (limiter w) (calls w ++ [EvUpdateBundle req])).

Definition dsSetBundle (req : datastore.SetBundleRequest)
  : M W (result datastore.SetBundleResponse) := fun w =>
  let (d, r) := datastore.SetBundle (ds w) req in
  (r, mkWorld d (up w) (limiter w) (calls w ++ [EvSetBundle req])).

Definition dsAppendBundle (req : datastore.AppendBundleRequest)
  : M W (result datastore.AppendBundleResponse) := fun w =>
  let (d, r) := datastore.AppendBundle (ds w) req in
  (r, mkWorld d (up w) (limiter w) (calls w ++ [EvAppendBundle req])).

Definition dsDeleteBundle (req : datastore.DeleteBundleRequest)
  : M W (result datastore.DeleteBundleResponse) := fun w =>
  let (d, r) := datastore.DeleteBundle (ds w) req in
  (r, mkWorld d (up w) (limiter w) (calls w ++ [EvDeleteBundle req])).

Definition upPublishJWTKey (jwtKey : common.PublicKey)
  : M W (result (list common.PublicKey)) := fun w =>
  let (u, r) := PublishJWTKey (up w) jwtKey in
  (r, mkWorld (ds w) u (limiter w) (calls w ++ [EvPublishJWTKey jwtKey])).

Definition rpccontext_RateLimit (count : Z) : M W (option error) := fun w =>
  let (l, r) := RateLimit (limiter w) count in
  (r, mkWorld (ds w) (up w) l (calls w ++ [EvRateLimit count])).

(** *** CountBundles *)
Definition CountBundles (s : Service) : M W (rpc bundlev1.CountBundlesResponse) :=
  r <- dsCountBundles ;;
  match r with
  | inr err =>
      ret (inr (api.MakeErr codes.Internal "failed to count bundles" (Some err)))
  | inl count => ret (inl (bundlev1.mkCountBundlesResponse count))
  end.

(** *** GetBundle *)
Definition GetBundle (s : Service) (req : bundlev1.GetBundleRequest)
  : M W (rpc types.Bundle) :=
  r <- dsFetchBundle (datastore.mkFetchBundleRequest (spiffeid.IDString (td s))) ;;
  match r with
  | inr err =>
      ret (inr (api.MakeErr codes.Internal "failed to fetch bundle" (Some err)))
  | inl dsResp =>
      match datastore.FetchedBundle dsResp with
      | None => ret (inr (api.MakeErr codes.NotFound "bundle not found" None))
      | Some dsBundle =>
          match api.BundleToProto (Some dsBundle) with
          | inr err =>
              ret (inr (api.MakeErr codes.Internal "failed to convert bundle"
                          (Some err)))
          | inl bundle =>
              ret (inl (applyBundleMask bundle (bundlev1.GetBundle_OutputMask req)))
          end
      end
  end.

(** *** AppendBundle *)
Definition AppendBundle (s : Service) (req : bundlev1.AppendBundleRequest)
  : M W (rpc types.Bundle) :=
  if Nat.eqb (List.length (bundlev1.JwtAuthorities req)) 0
     && Nat.eqb (List.length (bundlev1.X509Authorities req)) 0
  then ret (inr (api.MakeErr codes.InvalidArgument "no authorities to append" None))
  else
    match api.ParseJWTAuthorities (bundlev1.JwtAuthorities req) with
    | inr err =>
        ret (inr (api.MakeErr codes.InvalidArgument
                    "failed to convert JWT authority" (Some err)))
    | inl jwtAuth =>
        match api.ParseX509Authorities (bundlev1.X509Authorities req) with
        | inr err =>
            ret (inr (api.MakeErr codes.InvalidArgument
                        "failed to convert X.509 authority" (Some err)))
        | inl x509Auth =>
            r <- dsAppendBundle
                   (datastore.mkAppendBundleRequest
                      (common.mkBundle (spiffeid.IDString (td s)) x509Auth jwtAuth 0)) ;;
            match r with
            | inr err =>
                ret (inr (api.MakeErr codes.Internal "failed to append bundle"
                            (Some err)))
            | inl resp =>
                match api.BundleToProto (datastore.AppendedBundle resp) with
                | inr err =>
                    ret (inr (api.MakeErr codes.Internal
                                "failed to convert bundle" (Some err)))
                | inl bundle =>
                    ret (inl (applyBundleMask bundle
                                (bundlev1.AppendBundle_OutputMask req)))
                end
            end
        end
    end.

(** *** PublishJWTAuthority

    [keys[0]] on an empty slice is a run-time panic: the outer [option] is
    [None] then, and [Some] of the returned pair otherwise. *)
Definition PublishJWTAuthority (s : Service)
  (req : bundlev1.PublishJWTAuthorityRequest)
  : M W (option (rpc bundlev1.PublishJWTAuthorityResponse)) :=
  e <- rpccontext_RateLimit 1 ;;
  match e with
  | Some err =>
      ret (Some (inr (api.MakeErr (status.Code (Some err))
                        "rejecting request due to key publishing rate limiting"
                        (Some err))))
  | None =>
      match bundlev1.JwtAuthority req with
      | None =>
          ret (Some (inr (api.MakeErr codes.InvalidArgument
                            "missing JWT authority" None)))
      | Some jwtAuthority =>
          match api.ParseJWTAuthorities [jwtAuthority] with
          | inr err =>
              ret (Some (inr (api.MakeErr codes.InvalidArgument
                                "invalid JWT authority" (Some err))))
          | inl [] => ret None
          | inl (key0 :: _) =>
              r <- upPublishJWTKey key0 ;;
              match r with
              | inr err =>
                  ret (Some (inr (api.MakeErr codes.Internal
                                    "failed to publish JWT key" (Some err))))
              | inl resp =>
                  ret (Some (inl (bundlev1.mkPublishJWTAuthorityResponse
                                    (api.PublicKeysToProto resp))))
              end
          end
      end
  end.

(** *** ListFederatedBundles

    The body of the [for _, dsBundle := range dsResp.Bundles] loop, with the
    bundles appended to the response so far in [acc]. *)
Fixpoint listFederatedLoop (s : Service) (outputMask : option types.BundleMask)
  (dsBundles : list common.Bundle) (acc : list types.Bundle)
  : rpc (list types.Bundle) :=
  match dsBundles with
  | [] => inl acc
  | dsBundle :: rest =>
      match spiffeid.TrustDomainFromString (common.TrustDomainId dsBundle) with
      | inr err =>
          inr (api.MakeErr codes.Internal "bundle has an invalid trust domain ID"
                 (Some err))
      | inl td' =>
          if Z.eqb (spiffeid.Compare (td s) td') 0 then
            listFederatedLoop s outputMask rest acc
          else
            match api.BundleToProto (Some dsBundle) with
            | inr err =>
                inr (api.MakeErr codes.Internal "failed to convert bundle"
                       (Some err))
            | inl b =>
                listFederatedLoop s outputMask rest
                  (acc ++ [applyBundleMask b outputMask])
            end
      end
  end.

Definition ListFederatedBundles (s : Service)
  (req : bundlev1.ListFederatedBundlesRequest)
  : M W (rpc bundlev1.ListFederatedBundlesResponse) :=
  let listReq :=
    datastore.mkListBundlesRequest
      (if Z.ltb 0 (bundlev1.PageSize req)
       then Some (datastore.mkPagination (bundlev1.PageToken req)
                    (bundlev1.PageSize req))
       else None) in
  r <- dsListBundles listReq ;;
  match r with
  | inr err =>
      ret (inr (api.MakeErr codes.Internal "failed to list bundles" (Some err)))
  | inl dsResp =>
      let nextPageToken :=
        match datastore.ListRespPagination dsResp with
        | Some p => datastore.Token p
        | None => EmptyString
        end in
      match listFederatedLoop s (bundlev1.List_OutputMask req)
              (datastore.Bundles dsResp) [] with
      | inr e => ret (inr e)
      | inl bundles =>
          ret (inl (bundlev1.mkListFederatedBundlesResponse bundles nextPageToken))
      end
  end.

(** *** GetFederatedBundle *)
Definition GetFederatedBundle (s : Service)
  (req : bundlev1.GetFederatedBundleRequest) : M W (rpc types.Bundle) :=
  match spiffeid.TrustDomainFromString (bundlev1.TrustDomain req) with
  | inr err =>
      ret (inr (api.MakeErr codes.InvalidArgument
                  "trust domain argument is not valid" (Some err)))
  | inl td' =>
      if Z.eqb (spiffeid.Compare (td s) td') 0 then
        ret (inr (api.MakeErr codes.InvalidArgument
                    "getting a federated bundle for the server's own trust domain is not allowed"
                    None))
      else
        r <- dsFetchBundle (datastore.mkFetchBundleRequest (spiffeid.IDString td')) ;;
        match r with
        | inr err =>
            ret (inr (api.MakeErr codes.Internal "failed to fetch bundle"
                        (Some err)))
        | inl dsResp =>
            match datastore.FetchedBundle dsResp with
            | None => ret (inr (api.MakeErr codes.NotFound "bundle not found" None))
            | Some dsBundle =>
                match api.BundleToProto (Some dsBundle) with
                | inr err =>
                    ret (inr (api.MakeErr codes.Internal
                                "failed to convert bundle" (Some err)))
                | inl b =>
                    ret (inl (applyBundleMask b
                                (bundlev1.GetFederated_OutputMask req)))
                end
            end
        end
  end.

(** *** createFederatedBundle

    [switch status.Code(err)]: [inl] is the nil error, whose code is
    [codes.OK]; the code of a non-nil error is never [codes.OK]. *)
Definition createFederatedBundle (s : Service) (b : types.Bundle)
  (outputMask : option types.BundleMask)
  : M W bundlev1.BatchCreateFederatedBundleResponse_Result :=
  match spiffeid.TrustDomainFromString (types.TrustDomain b) with
  | inr err =>
      ret (bundlev1.mkBundleResult
             (api.MakeStatus codes.InvalidArgument
                "trust domain argument is not valid" (Some err)) None)
  | inl td' =>
      if Z.eqb (spiffeid.Compare (td s) td') 0 then
        ret (bundlev1.mkBundleResult
               (api.MakeStatus codes.InvalidArgument
                  "creating a federated bundle for the server's own trust domain is not allowed"
                  None) None)
      else
        match api.ProtoToBundle b with
        | inr err =>
            ret (bundlev1.mkBundleResult
                   (api.MakeStatus codes.InvalidArgument
                      "failed to convert bundle" (Some err)) None)
        | inl dsBundle =>
            r <- dsCreateBundle (datastore.mkCreateBundleRequest dsBundle) ;;
            match r with
            | inr err =>
                if N.eqb (status.Code (Some err)) codes.AlreadyExists then
                  ret (bundlev1.mkBundleResult
                         (api.MakeStatus codes.AlreadyExists
                            "bundle already exists" None) None)
                else
                  ret (bundlev1.mkBundleResult
                         (api.MakeStatus codes.Internal
                            "unable to create bundle" (Some err)) None)
            | inl resp =>
                match api.BundleToProto (datastore.CreatedBundle resp) with
                | inr err =>
                    ret (bundlev1.mkBundleResult
                           (api.MakeStatus codes.Internal
                              "failed to convert bundle" (Some err)) None)
                | inl protoBundle =>
                    ret (bundlev1.mkBundleResult api.OK
                           (Some (applyBundleMask protoBundle outputMask)))
                end
            end
        end
  end.

(** *** BatchCreateFederatedBundle *)
Definition BatchCreateFederatedBundle (s : Service)
  (req : bundlev1.BatchCreateFederatedBundleRequest)
  : M W (rpc bundlev1.BatchCreateFederatedBundleResponse) :=
  results <- rangeAppend
               (fun b => createFederatedBundle s b (bundlev1.Create_OutputMask req))
               (bundlev1.Create_Bundle req) [] ;;
  ret (inl (bundlev1.mkBatchCreateResponse results)).

(** *** setFederatedBundle *)
Definition setFederatedBundle (s : Service) (b : types.Bundle)
  (outputMask : option types.BundleMask)
  : M W bundlev1.BatchSetFederatedBundleResponse_Result :=
  match spiffeid.TrustDomainFromString (types.TrustDomain b) with
  | inr err =>
      ret (bundlev1.mkBundleResult
             (api.MakeStatus codes.InvalidArgument
                "trust domain argument is not valid" (Some err)) None)
  | inl td' =>
      if Z.eqb (spiffeid.Compare (td s) td') 0 then
        ret (bundlev1.mkBundleResult
               (api.MakeStatus codes.InvalidArgument
                  "setting a federated bundle for the server's own trust domain is not allowed"
                  None) None)
      else
        match api.ProtoToBundle b with
        | inr err =>
            ret (bundlev1.mkBundleResult
                   (api.MakeStatus codes.InvalidArgument
                      "failed to convert bundle" (Some err)) None)
        | inl dsBundle =>
            r <- dsSetBundle (datastore.mkSetBundleRequest dsBundle) ;;
            match r with
            | inr err =>
                ret (bundlev1.mkBundleResult
                       (api.MakeStatus codes.Internal
                          "failed to set bundle" (Some err)) None)
            | inl resp =>
                match api.BundleToProto (datastore.SetBundle_Result resp) with
                | inr err =>
                    ret (bundlev1.mkBundleResult
                           (api.MakeStatus codes.Internal
                              "failed to convert bundle" (Some err)) None)
                | inl protoBundle =>
                    ret (bundlev1.mkBundleResult api.OK
                           (Some (applyBundleMask protoBundle outputMask)))
                end
            end
        end
  end.

(** *** updateFederatedBundle *)
Definition updateFederatedBundle (s : Service) (b : types.Bundle)
  (inputMask outputMask : option types.BundleMask)
  : M W bundlev1.BatchUpdateFederatedBundleResponse_Result :=
  match spiffeid.TrustDomainFromString (types.TrustDomain b) with
  | inr err =>
      ret (bundlev1.mkBundleResult
             (api.MakeStatus codes.InvalidArgument
                "trust domain argument is not valid" (Some err)) None)
  | inl td' =>
      if Z.eqb (spiffeid.Compare (td s) td') 0 then
        ret (bundlev1.mkBundleResult
               (api.MakeStatus codes.InvalidArgument
                  "updating a federated bundle for the server's own trust domain is not allowed"
                  None) None)
      else
        match api.ProtoToBundle b with
        | inr err =>
            ret (bundlev1.mkBundleResult
                   (api.MakeStatus codes.InvalidArgument
                      "failed to convert bundle" (Some err)) None)
        | inl dsBundle =>
            r <- dsUpdateBundle
                   (datastore.mkUpdateBundleRequest dsBundle
                      (api.ProtoToBundleMask inputMask)) ;;
            match r with
            | inr err =>
                if N.eqb (status.Code (Some err)) codes.NotFound then
                  ret (bundlev1.mkBundleResult
                         (api.MakeStatus codes.NotFound
                            "bundle not found" (Some err)) None)
                else
                  ret (bundlev1.mkBundleResult
                         (api.MakeStatus codes.Internal
                            "failed to update bundle" (Some err)) None)
            | inl resp =>
                match api.BundleToProto (datastore.UpdatedBundle resp) with
                | inr err =>
                    ret (bundlev1.mkBundleResult
                           (api.MakeStatus codes.Internal
                              "failed to convert bundle" (Some err)) None)
                | inl protoBundle =>
                    ret (bundlev1.mkBundleResult api.OK
                           (Some (applyBundleMask protoBundle outputMask)))
                end
            end
        end
  end.

(** *** BatchUpdateFederatedBundle *)
Definition BatchUpdateFederatedBundle (s : Service)
  (req : bundlev1.BatchUpdateFederatedBundleRequest)
  : M W (rpc bundlev1.BatchUpdateFederatedBundleResponse) :=
  results <- rangeAppend
               (fun b => updateFederatedBundle s b (bundlev1.Update_InputMask req)
                           (bundlev1.Update_OutputMask req))
               (bundlev1.Update_Bundle req) [] ;;
  ret (inl (bundlev1.mkBatchUpdateResponse results)).

(** *** BatchSetFederatedBundle *)
Definition BatchSetFederatedBundle (s : Service)
  (req : bundlev1.BatchSetFederatedBundleRequest)
  : M W (rpc bundlev1.BatchSetFederatedBundleResponse) :=
  results <- rangeAppend
               (fun b => setFederatedBundle s b (bundlev1.Set_OutputMask req))
               (bundlev1.Set_Bundle req) [] ;;
  ret (inl (bundlev1.mkBatchSetResponse results)).

(** *** deleteFederatedBundle

    [code := status.Code(err)] and [switch code]: [inl] is the nil error,
    whose code is [codes.OK]. *)
Definition deleteFederatedBundle (s : Service) (trustDomain : string)
  (mode : datastore.DeleteBundleRequest_Mode)
  : M W bundlev1.BatchDeleteFederatedBundleResponse_Result :=
  match spiffeid.TrustDomainFromString trustDomain with
  | inr err =>
      ret (bundlev1.mkDeleteResult
             (api.MakeStatus codes.InvalidArgument
                "trust domain argument is not valid" (Some err)) trustDomain)
  | inl td' =>
      if Z.eqb (spiffeid.Compare (td s) td') 0 then
        ret (bundlev1.mkDeleteResult
               (api.MakeStatus codes.InvalidArgument
                  "removing the bundle for the server trust domain is not allowed"
                  None) trustDomain)
      else
        r <- dsDeleteBundle
               (datastore.mkDeleteBundleRequest (spiffeid.IDString td') mode) ;;
        match r with
        | inl _ => ret (bundlev1.mkDeleteResult api.OK trustDomain)
        | inr err =>
            let code := status.Code (Some err) in
            if N.eqb code codes.NotFound then
              ret (bundlev1.mkDeleteResult
                     (api.MakeStatus codes.NotFound "bundle not found" (Some err))
                     trustDomain)
            else
              ret (bundlev1.mkDeleteResult
                     (api.MakeStatus code "failed to delete federated bundle"
                        (Some err)) trustDomain)
        end
  end.

(** *** BatchDeleteFederatedBundle *)
Definition BatchDeleteFederatedBundle (s : Service)
  (req : bundlev1.BatchDeleteFederatedBundleRequest)
  : M W (rpc bundlev1.BatchDeleteFederatedBundleResponse) :=
  let (mode, err) := parseDeleteMode (bundlev1.Mode req) in
  match err with
  | Some e =>
      ret (inr (api.MakeErr codes.InvalidArgument
                  "failed to parse deletion mode" (Some e)))
  | None =>
      results <- rangeAppend
                   (fun trustDomain => deleteFederatedBundle s trustDomain mode)
                   (bundlev1.TrustDomains req) [] ;;
      ret (inl (bundlev1.mkBatchDeleteResponse results))
  end.

End Service.

(** ** Test doubles

    Deterministic stand-ins for the collaborators, in the manner of the
    fakes the service's tests substitute behind the interfaces: an in-memory
    datastore whose next call can be made to fail, a publisher that records
    the keys it was given, a token-bucket limiter, and simple converters. *)
Module fake.

(** The name of a trust domain given with or without the [spiffe://] scheme. *)
Definition stripScheme (s : string) : string :=
  if String.prefix "spiffe://" s then substring 9 (String.length s - 9) s else s.

Definition TrustDomainFromString (s : string) : result spiffeid.TrustDomain :=
  let n := stripScheme s in
  if String.eqb n EmptyString then inr (PlainError "trust domain is empty")
  else inl (spiffeid.mkTrustDomain n).

#[export] Instance parser : spiffeid.Parser := {
  spiffeid.TrustDomainFromString := TrustDomainFromString
}.

Definition certFromProto (c : types.X509Certificate) : common.Certificate :=
  common.mkCertificate (types.Asn1 c).

Definition keyFromProto (k : types.JWTKey) : common.PublicKey :=
  common.mkPublicKey (types.PublicKey k) (types.KeyId k) (types.ExpiresAt k).

Definition keyToProto (k : common.PublicKey) : types.JWTKey :=
  types.mkJWTKey (common.PkixBytes k) (common.Kid k) (common.NotAfter k).

Definition certToProto (c : common.Certificate) : types.X509Certificate :=
  types.mkX509Certificate (common.DerBytes c).

Definition ParseJWTAuthorities (ks : list types.JWTKey)
  : result (list common.PublicKey) :=
  if existsb (fun k => String.eqb (types.KeyId k) EmptyString) ks
  then inr (PlainError "missing key ID")
  else inl (map keyFromProto ks).

Definition ProtoToBundle (b : types.Bundle) : result common.Bundle :=
  match TrustDomainFromString (types.TrustDomain b) with
  | inr e => inr e
  | inl d =>
      match ParseJWTAuthorities (types.JwtAuthorities b) with
      | inr e => inr e
      | inl keys =>
          inl (common.mkBundle (spiffeid.IDString d)
                 (map certFromProto (types.X509Authorities b)) keys
                 (types.RefreshHint b))
      end
  end.

Definition BundleToProto (b : option common.Bundle) : result types.Bundle :=
  match b with
  | None => inr (PlainError "no bundle provided")
  | Some d =>
      match TrustDomainFromString (common.TrustDomainId d) with
      | inr e => inr e
      | inl t =>
          inl (types.mkBundle (spiffeid.name t) (common.RefreshHint d) 0
                 (map certToProto (common.RootCas d))
                 (map keyToProto (common.JwtSigningKeys d)))
      end
  end.

Definition ProtoToBundleMask (m : option types.BundleMask)
  : option common.BundleMask :=
  match m with
  | None => None
  | Some m =>
      Some (common.mkBundleMask (types.MaskX509Authorities m)
              (types.MaskJwtAuthorities m) (types.MaskRefreshHint m))
  end.

#[export] Instance converters : api.Converters := {
  api.ProtoToBundle := ProtoToBundle;
  api.BundleToProto := BundleToProto;
  api.ParseJWTAuthorities := ParseJWTAuthorities;
  api.ParseX509Authorities := fun cs => inl (map certFromProto cs);
  api.PublicKeysToProto := map keyToProto;
  api.ProtoToBundleMask := ProtoToBundleMask
}.

(** The in-memory datastore: the stored bundles in insertion order and the
    error, if any, the next call is to fail with. *)
Record Store : Type := mkStore {
  bundles : list common.Bundle;
  nextError : option error
}.

Definition sameId (id : string) (b : common.Bundle) : bool :=
  String.eqb id (common.TrustDomainId b).

Definition lookup (id : string) (st : Store) : option common.Bundle :=
  find (sameId id) (bundles st).

Definition remove (id : string) (bs : list common.Bundle) : list common.Bundle :=
  filter (fun b => negb (sameId id b)) bs.

Definition replace (b : common.Bundle) (bs : list common.Bundle)
  : list common.Bundle :=
  map (fun b' => if sameId (common.TrustDomainId b) b' then b else b') bs.

(** Run [op] unless an error was injected, which is consumed. *)
Definition guarded {A : Type} (st : Store) (op : Store * result A)
  : Store * result A :=
  match nextError st with
  | Some e => (mkStore (bundles st) None, inr e)
  | None => op
  end.

Definition notFound : error := StatusError 5 "datastore: bundle not found".
Definition alreadyExists : error := StatusError 6 "datastore: bundle already exists".

#[export] Instance dataStore : datastore.DataStore Store := {
  datastore.CountBundles := fun st =>
    guarded st (st, inl (Z.of_nat (List.length (bundles st))));
  datastore.FetchBundle := fun st req =>
    guarded st
      (st, inl (datastore.mkFetchBundleResponse
                  (lookup (datastore.FetchTrustDomainId req) st)));
  datastore.ListBundles := fun st req =>
    guarded st
      (st, inl (datastore.mkListBundlesResponse (bundles st)
                  (match datastore.ListReqPagination req with
                   | Some p =>
                       Some (datastore.mkPagination "next" (datastore.PageSize p))
                   | None => None
                   end)));
  datastore.CreateBundle := fun st req =>
    let b := datastore.CreateBundle_Bundle req in
    guarded st
      (match lookup (common.TrustDomainId b) st with
       | Some _ => (st, inr alreadyExists)
       | None =>
           (mkStore (bundles st ++ [b]) None,
            inl (datastore.mkCreateBundleResponse (Some b)))
       end);
  datastore.UpdateBundle := fun st req =>
    let b := datastore.UpdateBundle_Bundle req in
    guarded st
      (match lookup (common.TrustDomainId b) st with
       | None => (st, inr notFound)
       | Some _ =>
           (mkStore (replace b (bundles st)) None,
            inl (datastore.mkUpdateBundleResponse (Some b)))
       end);
  datastore.SetBundle := fun st req =>
    let b := datastore.SetBundle_Bundle req in
    guarded st
      (match lookup (common.TrustDomainId b) st with
       | None =>
           (mkStore (bundles st ++ [b]) None,
            inl (datastore.mkSetBundleResponse (Some b)))
       | Some _ =>
           (mkStore (replace b (bundles st)) None,
            inl (datastore.mkSetBundleResponse (Some b)))
       end);
  datastore.AppendBundle := fun st req =>
    let b := datastore.AppendBundle_Bundle req in
    guarded st
      (match lookup (common.TrustDomainId b) st with
       | None =>
           (mkStore (bundles st ++ [b]) None,
            inl (datastore.mkAppendBundleResponse (Some b)))
       | Some old =>
           let merged :=
             common.mkBundle (common.TrustDomainId old)
               (common.RootCas old ++ common.RootCas b)
               (common.JwtSigningKeys old ++ common.JwtSigningKeys b)
               (common.RefreshHint old) in
           (mkStore (replace merged (bundles st)) None,
            inl (datastore.mkAppendBundleResponse (Some merged)))
       end);
  datastore.DeleteBundle := fun st req =>
    let id := datastore.DeleteTrustDomainId req in
    guarded st
      (match lookup id st with
       | None => (st, inr notFound)
       | Some old =>
           (mkStore (remove id (bundles st)) None,
            inl (datastore.mkDeleteBundleResponse (Some old)))
       end)
}.

(** The publisher keeps every key published so far and returns them all. *)
#[export] Instance publisher : UpstreamPublisher (list common.PublicKey) := {
  PublishJWTKey := fun keys k => ((keys ++ [k])%list, inl (keys ++ [k])%list)
}.

(** The limiter holds the tokens left. *)
#[export] Instance rateLimiter : RateLimiter Z := {
  RateLimit := fun tokens count =>
    if Z.leb count tokens then ((tokens - count)%Z, None)
    else (tokens, Some (StatusError 8 "rate limit exceeded"))
}.

Definition world := World Store (list common.PublicKey) Z.

(** The server of the scenarios: trust domain [example.org]. *)
Definition server : Service := mkService (spiffeid.mkTrustDomain "example.org").

Definition bundleOf (id : string) : common.Bundle := common.mkBundle id [] [] 0.

Definition protoBundleOf (domain : string) : types.Bundle :=
  types.mkBundle domain 60 7 [types.mkX509Certificate [Byte.x30]]
    [types.mkJWTKey [Byte.x01] "key1" 100].

(** A fresh world: the stored bundles, the error injected into the next
    datastore call, and the tokens left in the limiter. *)
Definition worldWith (bs : list common.Bundle) (err : option error) (tokens : Z)
  : world := mkWorld (mkStore bs err) [] tokens [].

(** The datastore holds the server's bundle and the bundle of [other.org]. *)
Definition twoBundles : world :=
  worldWith [bundleOf "spiffe://example.org"; bundleOf "spiffe://other.org"]
    None 1.

(** The same, with the publish tokens used up. *)
Definition exhausted : world :=
  worldWith [bundleOf "spiffe://example.org"; bundleOf "spiffe://other.org"]
    None 0.

(** The error of a RESTRICT deletion refused because registration entries
    still federate with the bundle. *)
Definition restrictError : error :=
  StatusError 9 "cannot delete bundle; federated with 1 registration entries".

Definition restricted : world :=
  worldWith [bundleOf "spiffe://example.org"; bundleOf "spiffe://other.org"]
    (Some restrictError) 1.

(** The datastore is unreachable for the next call. *)
Definition unavailableError : error := StatusError 14 "connection refused".

Definition unavailable : world :=
  worldWith [bundleOf "spiffe://example.org"; bundleOf "spiffe://other.org"]
    (Some unavailableError) 1.

(** The datastore holds an entry whose trust-domain identifier is malformed,
    between two well-formed ones. *)
Definition malformedEntry : common.Bundle := bundleOf "spiffe://".

Definition corrupted : world :=
  worldWith [bundleOf "spiffe://other.org"; malformedEntry;
             bundleOf "spiffe://third.org"] None 1.

(** A datastore without any bundle. *)
Definition empty : world := worldWith [] None 1.

(** A bundle for [other.org] whose JWT key has no key ID: it does not
    convert. *)
Definition unconvertible : types.Bundle :=
  types.mkBundle "other.org" 60 7 [] [types.mkJWTKey [Byte.x01] EmptyString 100].

(** Converters that also refuse an X.509 authority without content. *)
Definition ParseX509Authorities (cs : list types.X509Certificate)
  : result (list common.Certificate) :=
  if existsb (fun c => Nat.eqb (List.length (types.Asn1 c)) 0) cs
  then inr (PlainError "empty certificate")
  else inl (map certFromProto cs).

#[export] Instance strictConverters : api.Converters := {
  api.ProtoToBundle := ProtoToBundle;
  api.BundleToProto := BundleToProto;
  api.ParseJWTAuthorities := ParseJWTAuthorities;
  api.ParseX509Authorities := ParseX509Authorities;
  api.PublicKeysToProto := map keyToProto;
  api.ProtoToBundleMask := ProtoToBundleMask
}.

End fake.

(** The bundles [ListFederatedBundles] leaves out: those whose trust domain
    parses to the server's own. *)
Definition isServerBundle {parser : spiffeid.Parser} (s : Service)
  (dsBundle : common.Bundle) : bool :=
  match spiffeid.TrustDomainFromString (common.TrustDomainId dsBundle) with
  | inl td' => Z.eqb (spiffeid.Compare (td s) td') 0
  | inr _ => false
  end.

(** The three modes the API declares: [RESTRICT], [DISSOCIATE], [DELETE]. *)
Definition declaredMode (mode : bundlev1.BatchDeleteFederatedBundleRequest_Mode)
  : Prop :=
  mode = bundlev1.BatchDeleteFederatedBundleRequest_RESTRICT \/
  mode = bundlev1.BatchDeleteFederatedBundleRequest_DISSOCIATE \/
  mode = bundlev1.BatchDeleteFederatedBundleRequest_DELETE.

(** A batch operation answers [inputs] with one result per item: the list
    [out resp] of its response has the length of [inputs], and its i-th
    result is what [handler] returns on the i-th input when run in the world
    the batch leaves after the first i inputs, that is
    [R = [f(x) for x in L]] with the items run in order. *)
Definition runsPerItem {W A B R : Type} (batch : list A -> M W (rpc R))
  (out : R -> list B) (handler : A -> M W B) (inputs : list A) (w : W) : Prop :=
  exists resp,
    fst (batch inputs w) = inl resp /\
    List.length (out resp) = List.length inputs /\
    forall (i : nat) (x : A),
      nth_error inputs i = Some x ->
      nth_error (out resp) i
      = Some (fst (handler x (snd (batch (firstn i inputs) w)))).

(** ** Notions used to state what the handlers do *)

(** The conjunction of two masks, selector by selector. *)
Definition andMask (m1 m2 : types.BundleMask) : types.BundleMask :=
  types.mkBundleMask
    (types.MaskRefreshHint m1 && types.MaskRefreshHint m2)
    (types.MaskSequenceNumber m1 && types.MaskSequenceNumber m2)
    (types.MaskX509Authorities m1 && types.MaskX509Authorities m2)
    (types.MaskJwtAuthorities m1 && types.MaskJwtAuthorities m2).

(** The mask that selects every field. *)
Definition fullMask : types.BundleMask := types.mkBundleMask true true true true.

(** A create, update or set result carries a bundle exactly when its status
    is OK. *)
Definition bundleIffOK (r : bundlev1.BundleResult) : Prop :=
  match bundlev1.Bundle r with
  | Some _ => api.Code (bundlev1.Status r) = codes.OK
  | None => api.Code (bundlev1.Status r) <> codes.OK
  end.

(** The trust domain an item may be stored under: the identifier parses and
    is not the server's own trust domain. *)
Definition foreignTrustDomain {parser : spiffeid.Parser} (s : Service)
  (trustDomain : string) : option spiffeid.TrustDomain :=
  match spiffeid.TrustDomainFromString trustDomain with
  | inr _ => None
  | inl td' => if Z.eqb (spiffeid.Compare (td s) td') 0 then None else Some td'
  end.

(** The bundle an item is stored as: its trust domain is a foreign one and
    the bundle converts. *)
Definition storedBundle {parser : spiffeid.Parser} {converters : api.Converters}
  (s : Service) (b : types.Bundle) : option common.Bundle :=
  match foreignTrustDomain s (types.TrustDomain b) with
  | None => None
  | Some _ =>
      match api.ProtoToBundle b with
      | inr _ => None
      | inl dsBundle => Some dsBundle
      end
  end.

(** The datastore call, if any, an item of each batch leads to. *)
Definition createCalls {parser : spiffeid.Parser} {converters : api.Converters}
  (s : Service) (b : types.Bundle) : list Event :=
  match storedBundle s b with
  | None => []
  | Some dsBundle => [EvCreateBundle (datastore.mkCreateBundleRequest dsBundle)]
  end.

Definition updateCalls {parser : spiffeid.Parser} {converters : api.Converters}
  (s : Service) (inputMask : option types.BundleMask) (b : types.Bundle)
  : list Event :=
  match storedBundle s b with
  | None => []
  | Some dsBundle =>
      [EvUpdateBundle (datastore.mkUpdateBundleRequest dsBundle
                         (api.ProtoToBundleMask inputMask))]
  end.

Definition setCalls {parser : spiffeid.Parser} {converters : api.Converters}
  (s : Service) (b : types.Bundle) : list Event :=
  match storedBundle s b with
  | None => []
  | Some dsBundle => [EvSetBundle (datastore.mkSetBundleRequest dsBundle)]
  end.

Definition deleteCalls {parser : spiffeid.Parser} (s : Service)
  (mode : datastore.DeleteBundleRequest_Mode) (trustDomain : string)
  : list Event :=
  match foreignTrustDomain s trustDomain with
  | None => []
  | Some td' =>
      [EvDeleteBundle (datastore.mkDeleteBundleRequest (spiffeid.IDString td') mode)]
  end.

(** Running a batch on [l1 ++ l2] is running it on [l1] and then, in the
    world this leaves, on [l2]: the results are those of the two calls, one
    after the other, and the final world is the same. *)
Definition runsInTwoCalls {W A B R : Type} (batch : list A -> M W (rpc R))
  (mk : list B -> R) (l1 l2 : list A) (w : W) : Prop :=
  exists (r1 r2 : list B) (w1 w2 : W),
    batch l1 w = (inl (mk r1), w1) /\
    batch l2 w1 = (inl (mk r2), w2) /\
    batch (l1 ++ l2)%list w = (inl (mk (r1 ++ r2)%list), w2).

(** What a handler leaves of the world when all it did was the datastore
    calls [evs]: the log grew by [evs], publisher and limiter are as before. *)
Definition onlyCalled {DS UP RL : Type} (evs : list Event)
  (w w' : World DS UP RL) : Prop :=
  calls w' = (calls w ++ evs)%list /\ up w' = up w /\ limiter w' = limiter w.

(** A datastore bundle whose trust-domain identifier parses. *)
Definition parses {parser : spiffeid.Parser} (dsBundle : common.Bundle) : Prop :=
  exists td',
    spiffeid.TrustDomainFromString (common.TrustDomainId dsBundle) = inl td'.

(** A datastore bundle that converts, if the listing has to convert it: the
    server's own bundle is left out before conversion. *)
Definition converts {parser : spiffeid.Parser} {converters : api.Converters}
  (s : Service) (dsBundle : common.Bundle) : Prop :=
  isServerBundle s dsBundle = false ->
  exists p, api.BundleToProto (Some dsBundle) = inl p.

(** * Properties *)

(** ** Trust-domain comparison *)

Lemma Compare_eq_iff (a b : spiffeid.TrustDomain) :
  spiffeid.Compare a b = 0%Z <-> a = b.
Proof.
  unfold spiffeid.Compare. destruct a as [na], b as [nb]; simpl.
  split.
  - destruct (String.compare na nb) eqn:E; try discriminate.
    intros _. apply String.compare_eq_iff in E. now subst.
  - intros [= ->].
    pose proof (String.compare_antisym nb nb) as A.
    destruct (String.compare nb nb); trivial; discriminate.
Qed.

Lemma Compare_own (a : spiffeid.TrustDomain) :
  Z.eqb (spiffeid.Compare a a) 0 = true.
Proof. apply Z.eqb_eq. now apply Compare_eq_iff. Qed.

(** ** The mask projector *)

(** C8. Projecting a bundle through an absent (nil) mask returns the bundle
    unchanged. *)
Theorem applyBundleMask_absent (b : types.Bundle) :
  applyBundleMask b None = b.
Proof. reflexivity. Qed.

(** C9. Through a present mask, each of the four fields whose selector is
    unset is cleared to its zero value (refresh hint 0, sequence number 0,
    no X.509 authorities, no JWT authorities) and each field whose selector
    is set keeps its value; the trust domain is never touched. *)
Theorem applyBundleMask_present (b : types.Bundle) (m : types.BundleMask) :
  let p := applyBundleMask b (Some m) in
  types.RefreshHint p
    = (if types.MaskRefreshHint m then types.RefreshHint b else 0%Z) /\
  types.SequenceNumber p
    = (if types.MaskSequenceNumber m then types.SequenceNumber b else 0%Z) /\
  types.X509Authorities p
    = (if types.MaskX509Authorities m then types.X509Authorities b else []) /\
  types.JwtAuthorities p
    = (if types.MaskJwtAuthorities m then types.JwtAuthorities b else []) /\
  types.TrustDomain p = types.TrustDomain b.
Proof.
  destruct b as [d rh sn xs js], m as [[] [] [] []]; simpl; repeat split.
Qed.

(** ** The delete-mode resolver *)

Lemma append_cancel_l (p a b : string) : p ++ a = p ++ b -> a = b.
Proof.
  induction p as [|c p IH]; simpl; intros E; [assumption|].
  injection E as E. auto.
Qed.

Lemma quote_inj (a b : string) : quote a = quote b -> a = b.
Proof.
  unfold quote. intros E. injection E as E. revert b E.
  induction a as [|c a IH]; intros [|c' b]; simpl; intros E.
  - reflexivity.
  - injection E as _ E. destruct b; discriminate.
  - injection E as _ E. destruct a; discriminate.
  - injection E as -> E. f_equal. auto.
Qed.

Lemma Itoa_inj (a b : Z) : bundlev1.Itoa a = bundlev1.Itoa b -> a = b.
Proof.
  unfold bundlev1.Itoa. intros E.
  apply (f_equal NilEmpty.int_of_string) in E.
  rewrite !NilEmpty.isi in E. injection E as E.
  apply (f_equal Z.of_int) in E. now rewrite !DecimalZ.of_to in E.
Qed.

Lemma parseDeleteMode_undeclared (mode : Z) :
  ~ declaredMode mode ->
  parseDeleteMode mode
  = (datastore.DeleteBundleRequest_RESTRICT,
     Some (PlainError ("unhandled delete mode " ++ quote (bundlev1.Itoa mode)))).
Proof.
  unfold declaredMode, parseDeleteMode, bundlev1.Mode_String. intros N.
  destruct (Z.eqb_spec mode bundlev1.BatchDeleteFederatedBundleRequest_RESTRICT);
    [tauto|].
  destruct (Z.eqb_spec mode bundlev1.BatchDeleteFederatedBundleRequest_DISSOCIATE);
    [tauto|].
  destruct (Z.eqb_spec mode bundlev1.BatchDeleteFederatedBundleRequest_DELETE);
    [tauto|].
  reflexivity.
Qed.

Lemma parseDeleteMode_declared (mode : Z) :
  declaredMode mode -> snd (parseDeleteMode mode) = None.
Proof. intros [-> | [-> | ->]]; reflexivity. Qed.

Lemma parseDeleteMode_ok_iff (mode : Z) :
  snd (parseDeleteMode mode) = None <-> declaredMode mode.
Proof.
  split; [|apply parseDeleteMode_declared].
  intros E. unfold declaredMode.
  destruct (Z.eq_dec mode bundlev1.BatchDeleteFederatedBundleRequest_RESTRICT);
    [tauto|].
  destruct (Z.eq_dec mode bundlev1.BatchDeleteFederatedBundleRequest_DISSOCIATE);
    [tauto|].
  destruct (Z.eq_dec mode bundlev1.BatchDeleteFederatedBundleRequest_DELETE);
    [tauto|].
  rewrite parseDeleteMode_undeclared in E; [discriminate|].
  unfold declaredMode; tauto.
Qed.

Lemma parseDeleteMode_error_identifies (mode mode' : Z) :
  ~ declaredMode mode ->
  snd (parseDeleteMode mode') = snd (parseDeleteMode mode) -> mode' = mode.
Proof.
  intros N E.
  rewrite (parseDeleteMode_undeclared N) in E. cbn [snd] in E.
  assert (N' : ~ declaredMode mode').
  { intros D. rewrite (parseDeleteMode_declared D) in E. discriminate. }
  rewrite (parseDeleteMode_undeclared N') in E. cbn [snd] in E.
  assert (E' : "unhandled delete mode " ++ quote (bundlev1.Itoa mode')
               = "unhandled delete mode " ++ quote (bundlev1.Itoa mode))
    by congruence.
  now apply Itoa_inj, quote_inj, (append_cancel_l "unhandled delete mode ").
Qed.

Lemma declaredMode_dec (mode : Z) : {declaredMode mode} + {~ declaredMode mode}.
Proof.
  unfold declaredMode.
  destruct (Z.eq_dec mode bundlev1.BatchDeleteFederatedBundleRequest_RESTRICT);
    [left; tauto|].
  destruct (Z.eq_dec mode bundlev1.BatchDeleteFederatedBundleRequest_DISSOCIATE);
    [left; tauto|].
  destruct (Z.eq_dec mode bundlev1.BatchDeleteFederatedBundleRequest_DELETE);
    [left; tauto|].
  right; tauto.
Qed.

(** ** The handlers *)
Local Open Scope list_scope.

Section ServiceProperties.
Context {DS UP RL : Type}.
Context {dataStore : datastore.DataStore DS}.
Context {publisher : UpstreamPublisher UP}.
Context {rateLimiter : RateLimiter RL}.
Context {parser : spiffeid.Parser}.
Context {converters : api.Converters}.

Local Abbreviation W := (World DS UP RL).

(** C4. [parseDeleteMode] maps each of RESTRICT, DISSOCIATE and DELETE to its
    datastore equivalent and succeeds for these three values only; for every
    other value it returns an error whose message carries the mode, so that
    the error identifies it; and [BatchDeleteFederatedBundle], which resolves
    the mode before its loop, then fails as a whole with one InvalidArgument
    error wrapping that error, without a result list and leaving the world
    (hence the datastore) untouched. *)
Theorem parseDeleteMode_precondition :
  parseDeleteMode bundlev1.BatchDeleteFederatedBundleRequest_RESTRICT
    = (datastore.DeleteBundleRequest_RESTRICT, None) /\
  parseDeleteMode bundlev1.BatchDeleteFederatedBundleRequest_DISSOCIATE
    = (datastore.DeleteBundleRequest_DISSOCIATE, None) /\
  parseDeleteMode bundlev1.BatchDeleteFederatedBundleRequest_DELETE
    = (datastore.DeleteBundleRequest_DELETE, None) /\
  (forall mode, snd (parseDeleteMode mode) = None <-> declaredMode mode) /\
  (forall mode, ~ declaredMode mode ->
     snd (parseDeleteMode mode)
       = Some (PlainError
                 ("unhandled delete mode " ++ quote (bundlev1.Itoa mode))%string) /\
     (forall mode',
        snd (parseDeleteMode mode') = snd (parseDeleteMode mode) ->
        mode' = mode) /\
     (forall (s : Service) (trustDomains : list string) (w : W),
        BatchDeleteFederatedBundle s
          (bundlev1.mkBatchDeleteRequest trustDomains mode) w
        = (inr (api.MakeErr codes.InvalidArgument
                  "failed to parse deletion mode"
                  (snd (parseDeleteMode mode))), w))).
Proof.
  split; [reflexivity|]. split; [reflexivity|]. split; [reflexivity|].
  split; [exact parseDeleteMode_ok_iff|].
  intros mode N. split; [|split].
  - rewrite (parseDeleteMode_undeclared N). reflexivity.
  - intros mode'. now apply parseDeleteMode_error_identifies.
  - intros s tds w. unfold BatchDeleteFederatedBundle. cbn [bundlev1.Mode].
    rewrite (parseDeleteMode_undeclared N). reflexivity.
Qed.

(** C1. Every federated operation given a trust-domain identifier that
    parses to the server's own trust domain answers InvalidArgument and
    leaves the world as it was: no datastore call is made (the call log and
    the datastore state are unchanged).  This holds for
    [GetFederatedBundle] and for the per-item handlers of the create,
    update, set and delete batches. *)
Theorem own_trust_domain_rejected (s : Service) (w : W) (trustDomain : string) :
  spiffeid.TrustDomainFromString trustDomain = inl (td s) ->
  (forall outputMask, exists st,
     GetFederatedBundle s
       (bundlev1.mkGetFederatedBundleRequest trustDomain outputMask) w
     = (inr st, w) /\ api.Code st = codes.InvalidArgument) /\
  (forall b outputMask, types.TrustDomain b = trustDomain -> exists st,
     createFederatedBundle s b outputMask w
     = (bundlev1.mkBundleResult st None, w) /\
     api.Code st = codes.InvalidArgument) /\
  (forall b inputMask outputMask, types.TrustDomain b = trustDomain -> exists st,
     updateFederatedBundle s b inputMask outputMask w
     = (bundlev1.mkBundleResult st None, w) /\
     api.Code st = codes.InvalidArgument) /\
  (forall b outputMask, types.TrustDomain b = trustDomain -> exists st,
     setFederatedBundle s b outputMask w
     = (bundlev1.mkBundleResult st None, w) /\
     api.Code st = codes.InvalidArgument) /\
  (forall mode, exists st,
     deleteFederatedBundle s trustDomain mode w
     = (bundlev1.mkDeleteResult st trustDomain, w) /\
     api.Code st = codes.InvalidArgument).
Proof.
  intros P. repeat split.
  - intros m. unfold GetFederatedBundle. cbn [bundlev1.TrustDomain].
    rewrite P, Compare_own. eexists; split; reflexivity.
  - intros b m <-. unfold createFederatedBundle in *.
    rewrite P, Compare_own. eexists; split; reflexivity.
  - intros b im m <-. unfold updateFederatedBundle in *.
    rewrite P, Compare_own. eexists; split; reflexivity.
  - intros b m <-. unfold setFederatedBundle in *.
    rewrite P, Compare_own. eexists; split; reflexivity.
  - intros mode. unfold deleteFederatedBundle.
    rewrite P, Compare_own. eexists; split; reflexivity.
Qed.

(** C7. An [AppendBundle] request with no X.509 authority and no JWT
    authority fails with InvalidArgument and the message
    [no authorities to append]; the world is left as it was, so no
    datastore call is made. *)
Theorem AppendBundle_no_authorities (s : Service)
  (outputMask : option types.BundleMask) (w : W) :
  AppendBundle s (bundlev1.mkAppendBundleRequest [] [] outputMask) w
  = (inr (api.MakeErr codes.InvalidArgument "no authorities to append" None), w).
Proof. reflexivity. Qed.

(** C6. When the rate limiter denies the request, [PublishJWTAuthority]
    fails at once with the status code of the limiter's error (not turned
    into Internal), wrapping that error; only the limiter was consulted: the
    publisher state is unchanged and the call log gained the limiter call
    alone, so the publisher was not invoked. *)
Theorem PublishJWTAuthority_rate_limited (s : Service)
  (req : bundlev1.PublishJWTAuthorityRequest) (w : W) (l' : RL) (err : error) :
  RateLimit (limiter w) 1 = (l', Some err) ->
  let (r, w') := PublishJWTAuthority s req w in
  r = Some (inr (api.MakeErr (status.Code (Some err))
                   "rejecting request due to key publishing rate limiting"
                   (Some err))) /\
  w' = mkWorld (ds w) (up w) l' (calls w ++ [EvRateLimit 1]) /\
  up w' = up w /\
  filter isPublisherCall (calls w') = filter isPublisherCall (calls w).
Proof.
  intros L. unfold PublishJWTAuthority, bind, rpccontext_RateLimit.
  rewrite L. unfold ret. repeat split; simpl.
  rewrite filter_app. simpl. now rewrite app_nil_r.
Qed.

(** *** The batch loop *)

Lemma rangeAppend_acc {A B : Type} (f : A -> M W B) (xs : list A) :
  forall (acc : list B) (w : W),
    rangeAppend f xs acc w
    = (acc ++ fst (rangeAppend f xs [] w), snd (rangeAppend f xs [] w)).
Proof.
  induction xs as [|x rest IH]; intros acc w; simpl.
  - unfold ret. simpl. now rewrite app_nil_r.
  - unfold bind. destruct (f x w) as [r w1].
    rewrite (IH (acc ++ [r]) w1), (IH [r] w1). simpl.
    now rewrite <- app_assoc.
Qed.

Lemma rangeAppend_length {A B : Type} (f : A -> M W B) (xs : list A) :
  forall w : W, List.length (fst (rangeAppend f xs [] w)) = List.length xs.
Proof.
  induction xs as [|x rest IH]; intros w; simpl; [reflexivity|].
  unfold bind. destruct (f x w) as [r w1].
  rewrite rangeAppend_acc. simpl. now rewrite IH.
Qed.

Lemma rangeAppend_nth {A B : Type} (f : A -> M W B) (xs : list A) :
  forall (w : W) (i : nat) (x : A),
    nth_error xs i = Some x ->
    nth_error (fst (rangeAppend f xs [] w)) i
    = Some (fst (f x (snd (rangeAppend f (firstn i xs) [] w)))).
Proof.
  induction xs as [|x0 rest IH]; intros w i x E.
  - destruct i; discriminate.
  - destruct i as [|j]; simpl in E.
    + injection E as ->. simpl. unfold bind.
      destruct (f x w) as [r w1]. rewrite rangeAppend_acc. reflexivity.
    + simpl. unfold bind. destruct (f x0 w) as [r w1].
      rewrite rangeAppend_acc. simpl.
      rewrite (rangeAppend_acc f (firstn j rest) [r] w1). simpl.
      now apply IH.
Qed.

Lemma runsPerItem_rangeAppend {A B R : Type} (f : A -> M W B)
  (mk : list B -> R) (out : R -> list B) (xs : list A) (w : W) :
  (forall rs, out (mk rs) = rs) ->
  runsPerItem
    (fun l => results <- rangeAppend f l [] ;; ret (inl (mk results)))
    out f xs w.
Proof.
  intros O. unfold runsPerItem, bind, ret.
  exists (mk (fst (rangeAppend f xs [] w))).
  destruct (rangeAppend f xs [] w) as [rs w1] eqn:E. simpl.
  rewrite O. split; [reflexivity|]. split.
  - change rs with (fst (rs, w1)). rewrite <- E. apply rangeAppend_length.
  - intros i x H.
    change rs with (fst (rs, w1)). rewrite <- E.
    rewrite (rangeAppend_nth f xs w i H).
    now destruct (rangeAppend f (firstn i xs) [] w).
Qed.

(** C2. Each batch operation answers with one result per input, in input
    order: the result list has the length of the input list and its i-th
    result is what the per-item handler returns on the i-th input, run in
    the world left by the items before it.  Nothing in this depends on what
    the other results are, so a failed item never costs another item its
    result.  The create, update and set batches always return their result
    list.  The delete batch returns one exactly when the mode is a declared
    one, and its handler runs with the resolved mode. *)
Theorem batch_one_result_per_item (s : Service) (w : W) :
  (forall bundles outputMask,
     runsPerItem
       (fun l => BatchCreateFederatedBundle s
                   (bundlev1.mkBatchCreateRequest l outputMask))
       bundlev1.Create_Results
       (fun b => createFederatedBundle s b outputMask) bundles w) /\
  (forall bundles inputMask outputMask,
     runsPerItem
       (fun l => BatchUpdateFederatedBundle s
                   (bundlev1.mkBatchUpdateRequest l inputMask outputMask))
       bundlev1.Update_Results
       (fun b => updateFederatedBundle s b inputMask outputMask) bundles w) /\
  (forall bundles outputMask,
     runsPerItem
       (fun l => BatchSetFederatedBundle s
                   (bundlev1.mkBatchSetRequest l outputMask))
       bundlev1.Set_Results
       (fun b => setFederatedBundle s b outputMask) bundles w) /\
  (forall trustDomains mode,
     declaredMode mode ->
     runsPerItem
       (fun l => BatchDeleteFederatedBundle s
                   (bundlev1.mkBatchDeleteRequest l mode))
       bundlev1.Delete_Results
       (fun trustDomain =>
          deleteFederatedBundle s trustDomain (fst (parseDeleteMode mode)))
       trustDomains w) /\
  (forall trustDomains mode resp,
     fst (BatchDeleteFederatedBundle s
            (bundlev1.mkBatchDeleteRequest trustDomains mode) w) = inl resp ->
     declaredMode mode).
Proof.
  split; [|split; [|split; [|split]]].
  - intros bundles m.
    apply (runsPerItem_rangeAppend
             (fun b => createFederatedBundle s b m)
             bundlev1.mkBatchCreateResponse). reflexivity.
  - intros bundles im m.
    apply (runsPerItem_rangeAppend
             (fun b => updateFederatedBundle s b im m)
             bundlev1.mkBatchUpdateResponse). reflexivity.
  - intros bundles m.
    apply (runsPerItem_rangeAppend
             (fun b => setFederatedBundle s b m)
             bundlev1.mkBatchSetResponse). reflexivity.
  - intros tds mode D.
    unfold BatchDeleteFederatedBundle. cbn [bundlev1.Mode bundlev1.TrustDomains].
    pose proof (parseDeleteMode_declared D) as E.
    destruct (parseDeleteMode mode) as [m e]. simpl in E. subst e. simpl fst.
    apply (runsPerItem_rangeAppend
             (fun t => deleteFederatedBundle s t m)
             bundlev1.mkBatchDeleteResponse). reflexivity.
  - intros tds mode resp E.
    destruct (declaredMode_dec mode) as [D | N]; [exact D|].
    unfold BatchDeleteFederatedBundle in E. cbn [bundlev1.Mode] in E.
    rewrite (parseDeleteMode_undeclared N) in E. discriminate E.
Qed.

(** *** The listing loop *)

Lemma listFederatedLoop_acc (s : Service) (m : option types.BundleMask)
  (bs : list common.Bundle) :
  forall acc : list types.Bundle,
    listFederatedLoop s m bs acc
    = match listFederatedLoop s m bs [] with
      | inl out => inl (acc ++ out)
      | inr e => inr e
      end.
Proof.
  induction bs as [|b rest IH]; intros acc; simpl.
  - now rewrite app_nil_r.
  - destruct (spiffeid.TrustDomainFromString (common.TrustDomainId b));
      [|reflexivity].
    destruct (Z.eqb _ 0); [apply IH|].
    destruct (api.BundleToProto (Some b)); [|reflexivity].
    rewrite (IH (acc ++ _)), (IH [_]).
    destruct (listFederatedLoop s m rest []); [|reflexivity].
    now rewrite <- app_assoc.
Qed.

Lemma listFederatedLoop_success (s : Service) (m : option types.BundleMask)
  (bs : list common.Bundle) :
  forall out : list types.Bundle,
    listFederatedLoop s m bs [] = inl out ->
    Forall (fun dsBundle =>
              exists td',
                spiffeid.TrustDomainFromString (common.TrustDomainId dsBundle)
                = inl td') bs /\
    Forall2 (fun dsBundle b =>
               exists p, api.BundleToProto (Some dsBundle) = inl p /\
                         b = applyBundleMask p m)
      (filter (fun dsBundle => negb (isServerBundle s dsBundle)) bs) out.
Proof.
  induction bs as [|b rest IH]; intros out E; simpl in E.
  - injection E as <-. split; constructor.
  - simpl filter. unfold isServerBundle at 1.
    destruct (spiffeid.TrustDomainFromString (common.TrustDomainId b))
      as [t|e] eqn:P; [|discriminate].
    destruct (Z.eqb (spiffeid.Compare (td s) t) 0) eqn:C; simpl.
    + destruct (IH out E) as [F G]. split; [|exact G].
      constructor; [now exists t | exact F].
    + destruct (api.BundleToProto (Some b)) as [p|e] eqn:Q; [|discriminate].
      rewrite listFederatedLoop_acc in E.
      destruct (listFederatedLoop s m rest []) as [out'|e] eqn:L;
        [|discriminate].
      injection E as <-. destruct (IH out' eq_refl) as [F G]. split.
      * constructor; [now exists t | exact F].
      * simpl. constructor; [now exists p | exact G].
Qed.

Lemma listFederatedLoop_malformed (s : Service) (m : option types.BundleMask)
  (bs : list common.Bundle) (dsBundle : common.Bundle) (err : error) :
  In dsBundle bs ->
  spiffeid.TrustDomainFromString (common.TrustDomainId dsBundle) = inr err ->
  forall acc, exists st,
    listFederatedLoop s m bs acc = inr st /\ api.Code st = codes.Internal.
Proof.
  intros I P. induction bs as [|b rest IH]; [contradiction|].
  intros acc. simpl.
  destruct (spiffeid.TrustDomainFromString (common.TrustDomainId b))
    as [t|e] eqn:Pb.
  - assert (I' : In dsBundle rest).
    { destruct I as [-> | I']; [congruence | exact I']. }
    destruct (Z.eqb _ 0); [now apply IH|].
    destruct (api.BundleToProto (Some b)); [now apply IH|].
    eexists; split; reflexivity.
  - eexists; split; reflexivity.
Qed.

(** [isServerBundle] holds of the bundles whose trust domain parses to the
    server's own, and of no other. *)
Lemma isServerBundle_iff (s : Service) (dsBundle : common.Bundle) :
  isServerBundle s dsBundle = true <->
  spiffeid.TrustDomainFromString (common.TrustDomainId dsBundle) = inl (td s).
Proof.
  unfold isServerBundle.
  destruct (spiffeid.TrustDomainFromString (common.TrustDomainId dsBundle))
    as [t|e].
  - rewrite Z.eqb_eq, Compare_eq_iff. split; [now intros -> | now intros [= ->]].
  - split; discriminate.
Qed.

(** C5. When [ListFederatedBundles] succeeds, the datastore answered the
    list request built from the page size and token, every bundle it
    returned has a trust domain that parses, and the response holds, in
    datastore order, exactly the bundles whose trust domain is not the
    server's own, each converted and then projected through the output
    mask; the next-page token is the token of the datastore's pagination
    (empty when the datastore returned none). *)
Theorem ListFederatedBundles_success (s : Service)
  (req : bundlev1.ListFederatedBundlesRequest) (w : W)
  (resp : bundlev1.ListFederatedBundlesResponse) :
  fst (ListFederatedBundles s req w) = inl resp ->
  exists (d' : DS) (dsResp : datastore.ListBundlesResponse),
    datastore.ListBundles (ds w)
      (datastore.mkListBundlesRequest
         (if Z.ltb 0 (bundlev1.PageSize req)
          then Some (datastore.mkPagination (bundlev1.PageToken req)
                       (bundlev1.PageSize req))
          else None))
    = (d', inl dsResp) /\
    Forall (fun dsBundle =>
              exists td',
                spiffeid.TrustDomainFromString (common.TrustDomainId dsBundle)
                = inl td') (datastore.Bundles dsResp) /\
    Forall2 (fun dsBundle b =>
               exists p, api.BundleToProto (Some dsBundle) = inl p /\
                         b = applyBundleMask p (bundlev1.List_OutputMask req))
      (filter (fun dsBundle => negb (isServerBundle s dsBundle))
         (datastore.Bundles dsResp))
      (bundlev1.Bundles resp) /\
    bundlev1.NextPageToken resp
    = match datastore.ListRespPagination dsResp with
      | Some p => datastore.Token p
      | None => EmptyString
      end.
Proof.
  unfold ListFederatedBundles, bind, dsListBundles. intros E.
  destruct (datastore.ListBundles (ds w) _) as [d' [dsResp|e]] eqn:L;
    [|discriminate].
  destruct (listFederatedLoop s (bundlev1.List_OutputMask req)
              (datastore.Bundles dsResp) []) as [out|e] eqn:Lp;
    [|discriminate].
  simpl in E. injection E as <-.
  exists d', dsResp. split; [reflexivity|].
  destruct (listFederatedLoop_success _ _ _ Lp) as [F G].
  repeat split; assumption.
Qed.

(** C10. If one of the bundles the datastore returns to
    [ListFederatedBundles] has a trust-domain identifier that does not
    parse, the whole call fails with an Internal error: there is no
    response, hence no bundle is returned, whatever comes before or after
    the malformed entry. *)
Theorem ListFederatedBundles_malformed (s : Service)
  (req : bundlev1.ListFederatedBundlesRequest) (w : W) (d' : DS)
  (dsResp : datastore.ListBundlesResponse) (dsBundle : common.Bundle)
  (err : error) :
  datastore.ListBundles (ds w)
    (datastore.mkListBundlesRequest
       (if Z.ltb 0 (bundlev1.PageSize req)
        then Some (datastore.mkPagination (bundlev1.PageToken req)
                     (bundlev1.PageSize req))
        else None))
  = (d', inl dsResp) ->
  In dsBundle (datastore.Bundles dsResp) ->
  spiffeid.TrustDomainFromString (common.TrustDomainId dsBundle) = inr err ->
  exists st,
    fst (ListFederatedBundles s req w) = inr st /\
    api.Code st = codes.Internal.
Proof.
  intros L I P. unfold ListFederatedBundles, bind, dsListBundles.
  rewrite L.
  destruct (listFederatedLoop_malformed s (bundlev1.List_OutputMask req)
              _ _ I P []) as [st [E C]].
  rewrite E. exists st. split; [reflexivity | exact C].
Qed.

(** *** Status translation of datastore failures *)

Lemma Compare_other (a b : spiffeid.TrustDomain) :
  b <> a -> Z.eqb (spiffeid.Compare a b) 0 = false.
Proof.
  intros N. apply Z.eqb_neq. intros E. apply Compare_eq_iff in E. congruence.
Qed.

(** C3, as the code has it.  When the datastore call of a per-item handler
    fails with an error whose code is neither NotFound nor AlreadyExists,
    the create, update and set handlers answer Internal, wrapping the
    datastore error.  The delete handler does not translate: for every
    datastore error code other than NotFound (OK is not the code of an
    error) it answers with that very code, wrapping the datastore error. *)
Theorem datastore_failure_status (s : Service) (w : W) (err : error) :
  (forall b outputMask td' dsBundle d',
     status.Code (Some err) <> codes.NotFound ->
     status.Code (Some err) <> codes.AlreadyExists ->
     spiffeid.TrustDomainFromString (types.TrustDomain b) = inl td' ->
     td' <> td s ->
     api.ProtoToBundle b = inl dsBundle ->
     datastore.CreateBundle (ds w) (datastore.mkCreateBundleRequest dsBundle)
     = (d', inr err) ->
     bundlev1.Status (fst (createFederatedBundle s b outputMask w))
     = api.MakeStatus codes.Internal "unable to create bundle" (Some err)) /\
  (forall b inputMask outputMask td' dsBundle d',
     status.Code (Some err) <> codes.NotFound ->
     status.Code (Some err) <> codes.AlreadyExists ->
     spiffeid.TrustDomainFromString (types.TrustDomain b) = inl td' ->
     td' <> td s ->
     api.ProtoToBundle b = inl dsBundle ->
     datastore.UpdateBundle (ds w)
       (datastore.mkUpdateBundleRequest dsBundle (api.ProtoToBundleMask inputMask))
     = (d', inr err) ->
     bundlev1.Status (fst (updateFederatedBundle s b inputMask outputMask w))
     = api.MakeStatus codes.Internal "failed to update bundle" (Some err)) /\
  (forall b outputMask td' dsBundle d',
     status.Code (Some err) <> codes.NotFound ->
     status.Code (Some err) <> codes.AlreadyExists ->
     spiffeid.TrustDomainFromString (types.TrustDomain b) = inl td' ->
     td' <> td s ->
     api.ProtoToBundle b = inl dsBundle ->
     datastore.SetBundle (ds w) (datastore.mkSetBundleRequest dsBundle)
     = (d', inr err) ->
     bundlev1.Status (fst (setFederatedBundle s b outputMask w))
     = api.MakeStatus codes.Internal "failed to set bundle" (Some err)) /\
  (forall trustDomain mode td' d',
     status.Code (Some err) <> codes.NotFound ->
     spiffeid.TrustDomainFromString trustDomain = inl td' ->
     td' <> td s ->
     datastore.DeleteBundle (ds w)
       (datastore.mkDeleteBundleRequest (spiffeid.IDString td') mode)
     = (d', inr err) ->
     bundlev1.Delete_Status (fst (deleteFederatedBundle s trustDomain mode w))
     = api.MakeStatus (status.Code (Some err))
         "failed to delete federated bundle" (Some err)).
Proof.
  split; [|split; [|split]].
  - intros b m t dsB d' NF AE P N Q D.
    unfold createFederatedBundle, bind, dsCreateBundle.
    rewrite P, (Compare_other N), Q, D.
    apply N.eqb_neq in AE. rewrite AE. reflexivity.
  - intros b im m t dsB d' NF AE P N Q D.
    unfold updateFederatedBundle, bind, dsUpdateBundle.
    rewrite P, (Compare_other N), Q, D.
    apply N.eqb_neq in NF. rewrite NF. reflexivity.
  - intros b m t dsB d' NF AE P N Q D.
    unfold setFederatedBundle, bind, dsSetBundle.
    rewrite P, (Compare_other N), Q, D. reflexivity.
  - intros t mode t' d' NF P N D.
    unfold deleteFederatedBundle, bind, dsDeleteBundle.
    rewrite P, (Compare_other N), D. cbv zeta.
    apply N.eqb_neq in NF. rewrite NF. reflexivity.
Qed.

End ServiceProperties.

(** * Scenarios on the test doubles *)
Section Scenarios.
#[local] Existing Instance fake.dataStore.
#[local] Existing Instance fake.publisher.
#[local] Existing Instance fake.rateLimiter.
#[local] Existing Instance fake.parser.
#[local] Existing Instance fake.converters.

(** [GetFederatedBundle("example.org")] on the server of [example.org]. *)
Lemma own_trust_domain_rejected_witness :
  spiffeid.TrustDomainFromString "example.org" = inl (td fake.server) /\
  (exists st,
     GetFederatedBundle fake.server
       (bundlev1.mkGetFederatedBundleRequest "example.org" None) fake.twoBundles
     = (inr st, fake.twoBundles) /\ api.Code st = codes.InvalidArgument) /\
  (exists st,
     deleteFederatedBundle fake.server "example.org"
       datastore.DeleteBundleRequest_DELETE fake.twoBundles
     = (bundlev1.mkDeleteResult st "example.org", fake.twoBundles) /\
     api.Code st = codes.InvalidArgument).
Proof.
  split; [reflexivity|].
  pose proof (own_trust_domain_rejected fake.server fake.twoBundles
                "example.org" eq_refl) as [G [_ [_ [_ D]]]].
  split; [exact (G None) | exact (D datastore.DeleteBundleRequest_DELETE)].
Defined.

(** A create batch of four items, two of which fail, and a delete batch. *)
Lemma batch_one_result_per_item_witness :
  runsPerItem
    (fun l => BatchCreateFederatedBundle fake.server
                (bundlev1.mkBatchCreateRequest l None))
    bundlev1.Create_Results
    (fun b => createFederatedBundle fake.server b None)
    [fake.protoBundleOf "other.org"; fake.protoBundleOf "new.org";
     fake.protoBundleOf "example.org"; fake.protoBundleOf "third.org"]
    fake.twoBundles /\
  declaredMode bundlev1.BatchDeleteFederatedBundleRequest_DELETE /\
  runsPerItem
    (fun l => BatchDeleteFederatedBundle fake.server
                (bundlev1.mkBatchDeleteRequest l
                   bundlev1.BatchDeleteFederatedBundleRequest_DELETE))
    bundlev1.Delete_Results
    (fun trustDomain =>
       deleteFederatedBundle fake.server trustDomain
         (fst (parseDeleteMode bundlev1.BatchDeleteFederatedBundleRequest_DELETE)))
    ["missing.org"; "other.org"] fake.twoBundles.
Proof.
  pose proof (batch_one_result_per_item fake.server fake.twoBundles)
    as [C [_ [_ [D _]]]].
  split; [apply C|].
  assert (M : declaredMode bundlev1.BatchDeleteFederatedBundleRequest_DELETE)
    by (right; right; reflexivity).
  split; [exact M | exact (D _ _ M)].
Defined.

(** The scenario of the create batch: the existing trust domain is refused,
    the others are created, the server's own is rejected. *)
Example BatchCreateFederatedBundle_scenario :
  match fst (BatchCreateFederatedBundle fake.server
               (bundlev1.mkBatchCreateRequest
                  [fake.protoBundleOf "other.org"; fake.protoBundleOf "new.org";
                   fake.protoBundleOf "example.org"] None) fake.twoBundles) with
  | inl resp =>
      map (fun r => api.Code (bundlev1.Status r)) (bundlev1.Create_Results resp)
      = [codes.AlreadyExists; codes.OK; codes.InvalidArgument]
  | inr _ => False
  end.
Proof. reflexivity. Qed.

(** C3 does not hold as stated: the datastore refuses a RESTRICT deletion
    with FailedPrecondition, a code that is neither OK, NotFound nor
    AlreadyExists, and the item's status carries FailedPrecondition, not
    Internal. *)
Lemma deleteFederatedBundle_not_internal :
  snd (datastore.DeleteBundle (ds fake.restricted)
         (datastore.mkDeleteBundleRequest "spiffe://other.org"
            datastore.DeleteBundleRequest_RESTRICT))
  = inr fake.restrictError /\
  status.Code (Some fake.restrictError) <> codes.OK /\
  status.Code (Some fake.restrictError) <> codes.NotFound /\
  status.Code (Some fake.restrictError) <> codes.AlreadyExists /\
  api.Code (bundlev1.Delete_Status
              (fst (deleteFederatedBundle fake.server "other.org"
                      datastore.DeleteBundleRequest_RESTRICT fake.restricted)))
  = codes.FailedPrecondition /\
  api.Code (bundlev1.Delete_Status
              (fst (deleteFederatedBundle fake.server "other.org"
                      datastore.DeleteBundleRequest_RESTRICT fake.restricted)))
  <> codes.Internal.
Proof. repeat split; discriminate. Qed.

(** A create that finds the datastore unreachable, and the refused RESTRICT
    deletion. *)
Lemma datastore_failure_status_witness :
  (status.Code (Some fake.unavailableError) <> codes.NotFound /\
   status.Code (Some fake.unavailableError) <> codes.AlreadyExists /\
   spiffeid.TrustDomainFromString "new.org"
   = inl (spiffeid.mkTrustDomain "new.org") /\
   spiffeid.mkTrustDomain "new.org" <> td fake.server /\
   bundlev1.Status
     (fst (createFederatedBundle fake.server (fake.protoBundleOf "new.org") None
             fake.unavailable))
   = api.MakeStatus codes.Internal "unable to create bundle"
       (Some fake.unavailableError)) /\
  (status.Code (Some fake.restrictError) <> codes.NotFound /\
   spiffeid.TrustDomainFromString "other.org"
   = inl (spiffeid.mkTrustDomain "other.org") /\
   spiffeid.mkTrustDomain "other.org" <> td fake.server /\
   bundlev1.Delete_Status
     (fst (deleteFederatedBundle fake.server "other.org"
             datastore.DeleteBundleRequest_RESTRICT fake.restricted))
   = api.MakeStatus codes.FailedPrecondition
       "failed to delete federated bundle" (Some fake.restrictError)).
Proof.
  assert (N1 : status.Code (Some fake.unavailableError) <> codes.NotFound)
    by discriminate.
  assert (A1 : status.Code (Some fake.unavailableError) <> codes.AlreadyExists)
    by discriminate.
  assert (T1 : spiffeid.mkTrustDomain "new.org" <> td fake.server)
    by discriminate.
  assert (N2 : status.Code (Some fake.restrictError) <> codes.NotFound)
    by discriminate.
  assert (T2 : spiffeid.mkTrustDomain "other.org" <> td fake.server)
    by discriminate.
  split.
  - split; [exact N1|]. split; [exact A1|]. split; [reflexivity|].
    split; [exact T1|].
    exact (proj1 (datastore_failure_status fake.server fake.unavailable
                    fake.unavailableError)
             (fake.protoBundleOf "new.org") None _ _ _ N1 A1 eq_refl T1
             eq_refl eq_refl).
  - split; [exact N2|]. split; [reflexivity|]. split; [exact T2|].
    exact (proj2 (proj2 (proj2
             (datastore_failure_status fake.server fake.restricted
                fake.restrictError)))
             "other.org" datastore.DeleteBundleRequest_RESTRICT _ _ N2 eq_refl
             T2 eq_refl).
Defined.

(** The undeclared mode 7: the error names it, and the delete batch stops
    before touching its two items. *)
Lemma parseDeleteMode_precondition_witness :
  ~ declaredMode 7%Z /\
  snd (parseDeleteMode 7%Z)
  = Some (PlainError ("unhandled delete mode " ++ quote "7")%string) /\
  BatchDeleteFederatedBundle fake.server
    (bundlev1.mkBatchDeleteRequest ["other.org"; "third.org"] 7%Z) fake.twoBundles
  = (inr (api.MakeErr codes.InvalidArgument "failed to parse deletion mode"
            (snd (parseDeleteMode 7%Z))), fake.twoBundles).
Proof.
  assert (N : ~ declaredMode 7%Z) by (intros [E | [E | E]]; discriminate E).
  split; [exact N|].
  pose proof (parseDeleteMode_precondition
                (DS := fake.Store) (UP := list common.PublicKey) (RL := Z))
    as [_ [_ [_ [_ U]]]].
  destruct (U 7%Z N) as [M [_ B]].
  split; [exact M | exact (B fake.server ["other.org"; "third.org"] fake.twoBundles)].
Defined.

(** A page of ten from a datastore holding the server's bundle and one
    other: the response keeps the other one and hands the token on. *)
Lemma ListFederatedBundles_success_witness :
  fst (ListFederatedBundles fake.server
         (bundlev1.mkListFederatedBundlesRequest 10 "tok" None) fake.twoBundles)
  = inl (bundlev1.mkListFederatedBundlesResponse
           [types.mkBundle "other.org" 0 0 [] []] "next") /\
  exists (d' : fake.Store) (dsResp : datastore.ListBundlesResponse),
    datastore.ListBundles (ds fake.twoBundles)
      (datastore.mkListBundlesRequest (Some (datastore.mkPagination "tok" 10)))
    = (d', inl dsResp) /\
    Forall (fun dsBundle =>
              exists td',
                spiffeid.TrustDomainFromString (common.TrustDomainId dsBundle)
                = inl td') (datastore.Bundles dsResp) /\
    Forall2 (fun dsBundle b =>
               exists p, api.BundleToProto (Some dsBundle) = inl p /\
                         b = applyBundleMask p None)
      (filter (fun dsBundle => negb (isServerBundle fake.server dsBundle))
         (datastore.Bundles dsResp))
      [types.mkBundle "other.org" 0 0 [] []] /\
    "next" = match datastore.ListRespPagination dsResp with
             | Some p => datastore.Token p
             | None => EmptyString
             end.
Proof.
  split; [reflexivity|].
  exact (ListFederatedBundles_success fake.server
           (bundlev1.mkListFederatedBundlesRequest 10 "tok" None)
           fake.twoBundles eq_refl).
Defined.

(** Publishing with no token left: ResourceExhausted, nothing published. *)
Lemma PublishJWTAuthority_rate_limited_witness :
  RateLimit (limiter fake.exhausted) 1
  = (0%Z, Some (StatusError 8 "rate limit exceeded")) /\
  let (r, w') :=
    PublishJWTAuthority fake.server
      (bundlev1.mkPublishJWTAuthorityRequest (Some (types.mkJWTKey [] "k" 0)))
      fake.exhausted in
  r = Some (inr (api.MakeErr codes.ResourceExhausted
                   "rejecting request due to key publishing rate limiting"
                   (Some (StatusError 8 "rate limit exceeded")))) /\
  w' = mkWorld (ds fake.exhausted) (up fake.exhausted) 0%Z
         (calls fake.exhausted ++ [EvRateLimit 1]) /\
  up w' = up fake.exhausted /\
  filter isPublisherCall (calls w')
  = filter isPublisherCall (calls fake.exhausted).
Proof.
  split; [reflexivity|].
  exact (PublishJWTAuthority_rate_limited fake.server
           (bundlev1.mkPublishJWTAuthorityRequest (Some (types.mkJWTKey [] "k" 0)))
           fake.exhausted eq_refl).
Defined.

(** A malformed entry between two well-formed ones fails the listing. *)
Lemma ListFederatedBundles_malformed_witness :
  datastore.ListBundles (ds fake.corrupted) (datastore.mkListBundlesRequest None)
  = (ds fake.corrupted,
     inl (datastore.mkListBundlesResponse
            [fake.bundleOf "spiffe://other.org"; fake.malformedEntry;
             fake.bundleOf "spiffe://third.org"] None)) /\
  In fake.malformedEntry
    [fake.bundleOf "spiffe://other.org"; fake.malformedEntry;
     fake.bundleOf "spiffe://third.org"] /\
  spiffeid.TrustDomainFromString (common.TrustDomainId fake.malformedEntry)
  = inr (PlainError "trust domain is empty") /\
  exists st,
    fst (ListFederatedBundles fake.server
           (bundlev1.mkListFederatedBundlesRequest 0 EmptyString None)
           fake.corrupted)
    = inr st /\ api.Code st = codes.Internal.
Proof.
  assert (I : In fake.malformedEntry
                [fake.bundleOf "spiffe://other.org"; fake.malformedEntry;
                 fake.bundleOf "spiffe://third.org"])
    by (right; left; reflexivity).
  split; [reflexivity|]. split; [exact I|]. split; [reflexivity|].
  exact (ListFederatedBundles_malformed fake.server
           (bundlev1.mkListFederatedBundlesRequest 0 EmptyString None)
           fake.corrupted
           (d' := ds fake.corrupted)
           (dsResp := datastore.mkListBundlesResponse
                        [fake.bundleOf "spiffe://other.org"; fake.malformedEntry;
                         fake.bundleOf "spiffe://third.org"] None)
           fake.malformedEntry (err := PlainError "trust domain is empty")
           eq_refl I eq_refl).
Defined.

End Scenarios.

(** * Further properties of the service *)

(** ** The mask projector *)

(** X1. Projecting through one mask and then another is projecting through
    the conjunction of the two; so the order of two projections does not
    matter. *)
Theorem applyBundleMask_compose (b : types.Bundle) (m1 m2 : types.BundleMask) :
  applyBundleMask (applyBundleMask b (Some m1)) (Some m2)
  = applyBundleMask b (Some (andMask m1 m2)) /\
  applyBundleMask (applyBundleMask b (Some m1)) (Some m2)
  = applyBundleMask (applyBundleMask b (Some m2)) (Some m1).
Proof.
  destruct b as [d rh sn xs js], m1 as [[] [] [] []], m2 as [[] [] [] []];
    split; reflexivity.
Qed.

(** X2. Projection is idempotent, for an absent and for a present mask. *)
Theorem applyBundleMask_idempotent (b : types.Bundle)
  (mask : option types.BundleMask) :
  applyBundleMask (applyBundleMask b mask) mask = applyBundleMask b mask.
Proof.
  destruct mask as [[[] [] [] []]|], b as [d rh sn xs js]; reflexivity.
Qed.

(** X3. A mask that selects all four fields projects like an absent mask,
    and a mask that selects none keeps the trust domain alone. *)
Theorem applyBundleMask_full_and_empty (b : types.Bundle) :
  applyBundleMask b (Some fullMask) = applyBundleMask b None /\
  applyBundleMask b (Some (types.mkBundleMask false false false false))
  = types.mkBundle (types.TrustDomain b) 0 0 [] [].
Proof. destruct b; split; reflexivity. Qed.

Section ServiceBehaviour.
Context {DS UP RL : Type}.
Context {dataStore : datastore.DataStore DS}.
Context {publisher : UpstreamPublisher UP}.
Context {rateLimiter : RateLimiter RL}.
Context {parser : spiffeid.Parser}.
Context {converters : api.Converters}.

Local Abbreviation W := (World DS UP RL).

(** Case analysis along the branches of a handler. *)
Ltac innermost x :=
  lazymatch x with
  | context [match ?y with _ => _ end] => innermost y
  | _ => destruct x eqn:?
  end.

Ltac branch :=
  match goal with
  | |- context [match ?x with _ => _ end] => innermost x
  end.

Ltac unfold_handlers :=
  unfold createFederatedBundle, updateFederatedBundle, setFederatedBundle,
    deleteFederatedBundle, GetFederatedBundle, GetBundle, AppendBundle,
    PublishJWTAuthority, CountBundles,
    dsCreateBundle, dsUpdateBundle, dsSetBundle, dsDeleteBundle, dsFetchBundle,
    dsAppendBundle, dsCountBundles, upPublishJWTKey, rpccontext_RateLimit,
    bind, ret.

Lemma foreignTrustDomain_Some (s : Service) (trustDomain : string)
  (td' : spiffeid.TrustDomain) :
  foreignTrustDomain s trustDomain = Some td' <->
  spiffeid.TrustDomainFromString trustDomain = inl td' /\ td' <> td s.
Proof.
  unfold foreignTrustDomain.
  destruct (spiffeid.TrustDomainFromString trustDomain) as [t|e].
  - destruct (Z.eqb (spiffeid.Compare (td s) t) 0) eqn:C.
    + apply Z.eqb_eq, Compare_eq_iff in C. subst t.
      split; [discriminate|]. intros [[= <-] N]. now elim N.
    + split.
      * intros [= ->]. split; [reflexivity|]. intros ->.
        now rewrite Compare_own in C.
      * now intros [[= ->] _].
  - split; [discriminate | now intros [? _]].
Qed.

(** X4. A trust-domain identifier that does not parse is refused with
    InvalidArgument, wrapping the parse error, by [GetFederatedBundle] and by
    the four per-item handlers, before any collaborator is called: the world
    is left as it was. *)
Theorem malformed_trust_domain_rejected (s : Service) (w : W)
  (trustDomain : string) (err : error) :
  spiffeid.TrustDomainFromString trustDomain = inr err ->
  let st := api.MakeStatus codes.InvalidArgument
              "trust domain argument is not valid" (Some err) in
  (forall outputMask,
     GetFederatedBundle s
       (bundlev1.mkGetFederatedBundleRequest trustDomain outputMask) w
     = (inr st, w)) /\
  (forall b outputMask, types.TrustDomain b = trustDomain ->
     createFederatedBundle s b outputMask w
     = (bundlev1.mkBundleResult st None, w)) /\
  (forall b inputMask outputMask, types.TrustDomain b = trustDomain ->
     updateFederatedBundle s b inputMask outputMask w
     = (bundlev1.mkBundleResult st None, w)) /\
  (forall b outputMask, types.TrustDomain b = trustDomain ->
     setFederatedBundle s b outputMask w
     = (bundlev1.mkBundleResult st None, w)) /\
  (forall mode,
     deleteFederatedBundle s trustDomain mode w
     = (bundlev1.mkDeleteResult st trustDomain, w)).
Proof.
  intros P st. split; [|split; [|split; [|split]]].
  - intros m. unfold GetFederatedBundle. cbn [bundlev1.TrustDomain].
    now rewrite P.
  - intros b m <-. unfold createFederatedBundle. now rewrite P.
  - intros b im m <-. unfold updateFederatedBundle. now rewrite P.
  - intros b m <-. unfold setFederatedBundle. now rewrite P.
  - intros mode. unfold deleteFederatedBundle. now rewrite P.
Qed.

(** X5. A bundle for a foreign trust domain that does not convert to the
    datastore form is refused with InvalidArgument, wrapping the conversion
    error, by the create, update and set handlers, and the world is left as
    it was: the datastore is not called. *)
Theorem unconvertible_bundle_rejected (s : Service) (w : W) (b : types.Bundle)
  (td' : spiffeid.TrustDomain) (err : error) :
  foreignTrustDomain s (types.TrustDomain b) = Some td' ->
  api.ProtoToBundle b = inr err ->
  let r := bundlev1.mkBundleResult
             (api.MakeStatus codes.InvalidArgument "failed to convert bundle"
                (Some err)) None in
  (forall outputMask, createFederatedBundle s b outputMask w = (r, w)) /\
  (forall inputMask outputMask,
     updateFederatedBundle s b inputMask outputMask w = (r, w)) /\
  (forall outputMask, setFederatedBundle s b outputMask w = (r, w)).
Proof.
  intros F Q r. apply foreignTrustDomain_Some in F as [P N].
  split; [|split]; intros; unfold_handlers;
    now rewrite P, (Compare_other N), Q.
Qed.


(** *** What every result of a batch satisfies *)

Lemma rangeAppend_Forall {A B : Type} (f : A -> M W B) (P : B -> Prop)
  (xs : list A) :
  (forall x w, P (fst (f x w))) ->
  forall w : W, Forall P (fst (rangeAppend f xs [] w)).
Proof.
  intros H. induction xs as [|x rest IH]; intros w; simpl.
  - constructor.
  - unfold bind. pose proof (H x w) as Hx. destruct (f x w) as [r w1].
    rewrite rangeAppend_acc. simpl. constructor; [exact Hx | apply IH].
Qed.

Lemma rangeAppend_map {A B : Type} (f : A -> M W B) (g : B -> A)
  (xs : list A) :
  (forall x w, g (fst (f x w)) = x) ->
  forall w : W, map g (fst (rangeAppend f xs [] w)) = xs.
Proof.
  intros H. induction xs as [|x rest IH]; intros w; simpl.
  - reflexivity.
  - unfold bind. pose proof (H x w) as Hx. destruct (f x w) as [r w1].
    rewrite rangeAppend_acc. simpl in *. now rewrite Hx, IH.
Qed.

Lemma createFederatedBundle_bundleIffOK (s : Service) (b : types.Bundle)
  (m : option types.BundleMask) (w : W) :
  bundleIffOK (fst (createFederatedBundle s b m w)).
Proof.
  unfold_handlers. repeat branch; unfold bundleIffOK; simpl;
    (reflexivity || discriminate).
Qed.

Lemma updateFederatedBundle_bundleIffOK (s : Service) (b : types.Bundle)
  (im m : option types.BundleMask) (w : W) :
  bundleIffOK (fst (updateFederatedBundle s b im m w)).
Proof.
  unfold_handlers. repeat branch; unfold bundleIffOK; simpl;
    (reflexivity || discriminate).
Qed.

Lemma setFederatedBundle_bundleIffOK (s : Service) (b : types.Bundle)
  (m : option types.BundleMask) (w : W) :
  bundleIffOK (fst (setFederatedBundle s b m w)).
Proof.
  unfold_handlers. repeat branch; unfold bundleIffOK; simpl;
    (reflexivity || discriminate).
Qed.

(** X7. In the response of a create, update or set batch, a result carries
    a bundle exactly when its status is OK: a failed item never comes with a
    bundle and a successful one always does. *)
Theorem batch_bundle_iff_ok (s : Service) (w : W) :
  (forall req resp,
     fst (BatchCreateFederatedBundle s req w) = inl resp ->
     Forall bundleIffOK (bundlev1.Create_Results resp)) /\
  (forall req resp,
     fst (BatchUpdateFederatedBundle s req w) = inl resp ->
     Forall bundleIffOK (bundlev1.Update_Results resp)) /\
  (forall req resp,
     fst (BatchSetFederatedBundle s req w) = inl resp ->
     Forall bundleIffOK (bundlev1.Set_Results resp)).
Proof.
  split; [|split]; intros req resp E.
  - unfold BatchCreateFederatedBundle, bind, ret in E.
    pose proof (rangeAppend_Forall
                  (fun b => createFederatedBundle s b (bundlev1.Create_OutputMask req))
                  bundleIffOK (bundlev1.Create_Bundle req)
                  (fun x w' => createFederatedBundle_bundleIffOK s x _ w') w) as F.
    destruct (rangeAppend _ _ _ w) as [rs w1]. simpl in E. injection E as <-.
    exact F.
  - unfold BatchUpdateFederatedBundle, bind, ret in E.
    pose proof (rangeAppend_Forall
                  (fun b => updateFederatedBundle s b (bundlev1.Update_InputMask req)
                              (bundlev1.Update_OutputMask req))
                  bundleIffOK (bundlev1.Update_Bundle req)
                  (fun x w' => updateFederatedBundle_bundleIffOK s x _ _ w') w) as F.
    destruct (rangeAppend _ _ _ w) as [rs w1]. simpl in E. injection E as <-.
    exact F.
  - unfold BatchSetFederatedBundle, bind, ret in E.
    pose proof (rangeAppend_Forall
                  (fun b => setFederatedBundle s b (bundlev1.Set_OutputMask req))
                  bundleIffOK (bundlev1.Set_Bundle req)
                  (fun x w' => setFederatedBundle_bundleIffOK s x _ w') w) as F.
    destruct (rangeAppend _ _ _ w) as [rs w1]. simpl in E. injection E as <-.
    exact F.
Qed.

Lemma deleteFederatedBundle_echo (s : Service) (trustDomain : string)
  (mode : datastore.DeleteBundleRequest_Mode) (w : W) :
  bundlev1.Delete_TrustDomain (fst (deleteFederatedBundle s trustDomain mode w))
  = trustDomain.
Proof. unfold_handlers. repeat branch; reflexivity. Qed.

(** X8. The results of a delete batch name, in order, the trust domains of
    the request exactly as they were given (not in canonical form), whether
    the deletions succeeded or not. *)
Theorem BatchDeleteFederatedBundle_echoes_trust_domains (s : Service)
  (req : bundlev1.BatchDeleteFederatedBundleRequest) (w : W)
  (resp : bundlev1.BatchDeleteFederatedBundleResponse) :
  fst (BatchDeleteFederatedBundle s req w) = inl resp ->
  map bundlev1.Delete_TrustDomain (bundlev1.Delete_Results resp)
  = bundlev1.TrustDomains req.
Proof.
  unfold BatchDeleteFederatedBundle. destruct (parseDeleteMode _) as [mode [e|]].
  - discriminate.
  - unfold bind, ret. intros E.
    pose proof (rangeAppend_map
                  (fun t => deleteFederatedBundle s t mode)
                  bundlev1.Delete_TrustDomain (bundlev1.TrustDomains req)
                  (fun x w' => deleteFederatedBundle_echo s x mode w') w) as F.
    destruct (rangeAppend _ _ _ w) as [rs w1]. simpl in E. injection E as <-.
    exact F.
Qed.

(** *** The datastore calls of a batch *)

Lemma onlyCalled_trans (e1 e2 : list Event) (w w1 w2 : W) :
  onlyCalled e1 w w1 -> onlyCalled e2 w1 w2 -> onlyCalled (e1 ++ e2) w w2.
Proof.
  unfold onlyCalled. intros [C1 [U1 L1]] [C2 [U2 L2]].
  rewrite C2, C1, U2, U1, L2, L1, app_assoc. repeat split.
Qed.

Lemma rangeAppend_onlyCalled {A B : Type} (f : A -> M W B)
  (ev : A -> list Event) (xs : list A) :
  (forall x w, onlyCalled (ev x) w (snd (f x w))) ->
  forall (acc : list B) (w : W),
    onlyCalled (flat_map ev xs) w (snd (rangeAppend f xs acc w)).
Proof.
  intros H. induction xs as [|x rest IH]; intros acc w; simpl.
  - unfold onlyCalled. now rewrite app_nil_r.
  - unfold bind. pose proof (H x w) as Hx. destruct (f x w) as [r w1].
    simpl in Hx. exact (onlyCalled_trans Hx (IH (acc ++ [r]) w1)).
Qed.

Ltac unfold_calls :=
  unfold onlyCalled, createCalls, updateCalls, setCalls, deleteCalls,
    storedBundle, foreignTrustDomain.

Lemma createFederatedBundle_calls (s : Service) (m : option types.BundleMask)
  (b : types.Bundle) (w : W) :
  onlyCalled (createCalls s b) w (snd (createFederatedBundle s b m w)).
Proof.
  unfold_handlers. unfold_calls.
  repeat branch; simpl; rewrite ?app_nil_r; repeat split.
Qed.

Lemma updateFederatedBundle_calls (s : Service) (im m : option types.BundleMask)
  (b : types.Bundle) (w : W) :
  onlyCalled (updateCalls s im b) w (snd (updateFederatedBundle s b im m w)).
Proof.
  unfold_handlers. unfold_calls.
  repeat branch; simpl; rewrite ?app_nil_r; repeat split.
Qed.

Lemma setFederatedBundle_calls (s : Service) (m : option types.BundleMask)
  (b : types.Bundle) (w : W) :
  onlyCalled (setCalls s b) w (snd (setFederatedBundle s b m w)).
Proof.
  unfold_handlers. unfold_calls.
  repeat branch; simpl; rewrite ?app_nil_r; repeat split.
Qed.

Lemma deleteFederatedBundle_calls (s : Service)
  (mode : datastore.DeleteBundleRequest_Mode) (t : string) (w : W) :
  onlyCalled (deleteCalls s mode t) w (snd (deleteFederatedBundle s t mode w)).
Proof.
  unfold_handlers. unfold_calls.
  repeat branch; simpl; rewrite ?app_nil_r; repeat split.
Qed.

(** X9. The datastore sees of a batch one call per item that passes
    validation, in input order, and nothing for the other items: a create,
    update or set call for each bundle whose trust domain parses, is not the
    server's own, and which converts; a delete call, with the canonical ID
    and the resolved mode, for each trust domain that parses and is not the
    server's own (none at all when the mode is not a declared one).  The
    batches call neither the publisher nor the rate limiter. *)
Theorem batch_datastore_calls (s : Service) (w : W) :
  (forall bundles outputMask,
     onlyCalled (flat_map (createCalls s) bundles) w
       (snd (BatchCreateFederatedBundle s
               (bundlev1.mkBatchCreateRequest bundles outputMask) w))) /\
  (forall bundles inputMask outputMask,
     onlyCalled (flat_map (updateCalls s inputMask) bundles) w
       (snd (BatchUpdateFederatedBundle s
               (bundlev1.mkBatchUpdateRequest bundles inputMask outputMask) w))) /\
  (forall bundles outputMask,
     onlyCalled (flat_map (setCalls s) bundles) w
       (snd (BatchSetFederatedBundle s
               (bundlev1.mkBatchSetRequest bundles outputMask) w))) /\
  (forall trustDomains mode,
     onlyCalled
       (match snd (parseDeleteMode mode) with
        | None => flat_map (deleteCalls s (fst (parseDeleteMode mode))) trustDomains
        | Some _ => []
        end) w
       (snd (BatchDeleteFederatedBundle s
               (bundlev1.mkBatchDeleteRequest trustDomains mode) w))).
Proof.
  split; [|split; [|split]].
  - intros bs m. unfold BatchCreateFederatedBundle, bind, ret.
    cbn [bundlev1.Create_Bundle bundlev1.Create_OutputMask].
    pose proof (rangeAppend_onlyCalled
                  (fun b => createFederatedBundle s b m) (createCalls s) bs
                  (createFederatedBundle_calls s m) [] w) as F.
    now destruct (rangeAppend _ bs [] w).
  - intros bs im m. unfold BatchUpdateFederatedBundle, bind, ret.
    cbn [bundlev1.Update_Bundle bundlev1.Update_OutputMask
         bundlev1.Update_InputMask].
    pose proof (rangeAppend_onlyCalled
                  (fun b => updateFederatedBundle s b im m) (updateCalls s im) bs
                  (updateFederatedBundle_calls s im m) [] w) as F.
    now destruct (rangeAppend _ bs [] w).
  - intros bs m. unfold BatchSetFederatedBundle, bind, ret.
    cbn [bundlev1.Set_Bundle bundlev1.Set_OutputMask].
    pose proof (rangeAppend_onlyCalled
                  (fun b => setFederatedBundle s b m) (setCalls s) bs
                  (setFederatedBundle_calls s m) [] w) as F.
    now destruct (rangeAppend _ bs [] w).
  - intros tds mode. unfold BatchDeleteFederatedBundle, bind, ret.
    cbn [bundlev1.TrustDomains bundlev1.Mode].
    destruct (parseDeleteMode mode) as [m [e|]]; simpl.
    + unfold onlyCalled. now rewrite app_nil_r.
    + pose proof (rangeAppend_onlyCalled
                    (fun t => deleteFederatedBundle s t m) (deleteCalls s m) tds
                    (deleteFederatedBundle_calls s m) [] w) as F.
      now destruct (rangeAppend _ tds [] w).
Qed.

(** *** Splitting a batch *)

Lemma rangeAppend_app {A B : Type} (f : A -> M W B) (l1 l2 : list A) :
  forall (acc : list B) (w : W),
    rangeAppend f (l1 ++ l2) acc w
    = rangeAppend f l2 (fst (rangeAppend f l1 acc w))
        (snd (rangeAppend f l1 acc w)).
Proof.
  induction l1 as [|x rest IH]; intros acc w; simpl.
  - reflexivity.
  - unfold bind. destruct (f x w) as [r w1]. apply IH.
Qed.

Lemma runsInTwoCalls_rangeAppend {A B R : Type} (f : A -> M W B)
  (mk : list B -> R) (l1 l2 : list A) (w : W) :
  runsInTwoCalls
    (fun l => results <- rangeAppend f l [] ;; ret (inl (mk results)))
    mk l1 l2 w.
Proof.
  unfold runsInTwoCalls, bind, ret.
  exists (fst (rangeAppend f l1 [] w)),
         (fst (rangeAppend f l2 [] (snd (rangeAppend f l1 [] w)))),
         (snd (rangeAppend f l1 [] w)),
         (snd (rangeAppend f l2 [] (snd (rangeAppend f l1 [] w)))).
  rewrite rangeAppend_app.
  destruct (rangeAppend f l1 [] w) as [r1 w1]. simpl.
  rewrite (rangeAppend_acc f l2 r1 w1).
  destruct (rangeAppend f l2 [] w1) as [r2 w2]. simpl. repeat split.
Qed.

(** X10. A batch can be split: running it on the concatenation of two
    input lists gives the results, and leaves the world, of running it on
    the first list and then on the second.  This holds for the create,
    update and set batches, and for the delete batch with a declared mode. *)
Theorem batch_split (s : Service) (w : W) :
  (forall l1 l2 outputMask,
     runsInTwoCalls
       (fun l => BatchCreateFederatedBundle s
                   (bundlev1.mkBatchCreateRequest l outputMask))
       bundlev1.mkBatchCreateResponse l1 l2 w) /\
  (forall l1 l2 inputMask outputMask,
     runsInTwoCalls
       (fun l => BatchUpdateFederatedBundle s
                   (bundlev1.mkBatchUpdateRequest l inputMask outputMask))
       bundlev1.mkBatchUpdateResponse l1 l2 w) /\
  (forall l1 l2 outputMask,
     runsInTwoCalls
       (fun l => BatchSetFederatedBundle s
                   (bundlev1.mkBatchSetRequest l outputMask))
       bundlev1.mkBatchSetResponse l1 l2 w) /\
  (forall l1 l2 mode,
     declaredMode mode ->
     runsInTwoCalls
       (fun l => BatchDeleteFederatedBundle s
                   (bundlev1.mkBatchDeleteRequest l mode))
       bundlev1.mkBatchDeleteResponse l1 l2 w).
Proof.
  split; [|split; [|split]].
  - intros l1 l2 m.
    exact (runsInTwoCalls_rangeAppend
             (fun b => createFederatedBundle s b m)
             bundlev1.mkBatchCreateResponse l1 l2 w).
  - intros l1 l2 im m.
    exact (runsInTwoCalls_rangeAppend
             (fun b => updateFederatedBundle s b im m)
             bundlev1.mkBatchUpdateResponse l1 l2 w).
  - intros l1 l2 m.
    exact (runsInTwoCalls_rangeAppend
             (fun b => setFederatedBundle s b m)
             bundlev1.mkBatchSetResponse l1 l2 w).
  - intros l1 l2 mode D.
    unfold BatchDeleteFederatedBundle. cbn [bundlev1.Mode bundlev1.TrustDomains].
    pose proof (parseDeleteMode_declared D) as E.
    destruct (parseDeleteMode mode) as [m e]. simpl in E. subst e.
    exact (runsInTwoCalls_rangeAppend
             (fun t => deleteFederatedBundle s t m)
             bundlev1.mkBatchDeleteResponse l1 l2 w).
Qed.

(** *** Listing *)

(** X11. [ListFederatedBundles] makes one datastore call, [ListBundles].
    With a positive page size the call carries the page size and the page
    token; with a page size of zero or less it carries no pagination at all,
    and the page token of the request is dropped. *)
Theorem ListFederatedBundles_forwards_pagination (s : Service)
  (req : bundlev1.ListFederatedBundlesRequest) (w : W) :
  ((0 < bundlev1.PageSize req)%Z ->
   onlyCalled
     [EvListBundles
        (datastore.mkListBundlesRequest
           (Some (datastore.mkPagination (bundlev1.PageToken req)
                    (bundlev1.PageSize req))))]
     w (snd (ListFederatedBundles s req w))) /\
  ((bundlev1.PageSize req <= 0)%Z ->
   onlyCalled [EvListBundles (datastore.mkListBundlesRequest None)]
     w (snd (ListFederatedBundles s req w))).
Proof.
  split; intros H.
  - apply Z.ltb_lt in H. unfold ListFederatedBundles, bind, ret, dsListBundles.
    rewrite H. unfold onlyCalled. repeat branch; simpl; repeat split.
  - apply Z.ltb_ge in H. unfold ListFederatedBundles, bind, ret, dsListBundles.
    rewrite H. unfold onlyCalled. repeat branch; simpl; repeat split.
Qed.

Lemma listFederatedLoop_failure (s : Service) (m : option types.BundleMask)
  (bs : list common.Bundle) :
  forall acc st,
    listFederatedLoop s m bs acc = inr st -> api.Code st = codes.Internal.
Proof.
  induction bs as [|b rest IH]; intros acc st; simpl; [discriminate|].
  repeat branch; try (intros [= <-]; reflexivity); apply IH.
Qed.

Lemma listFederatedLoop_total (s : Service) (m : option types.BundleMask)
  (bs : list common.Bundle) :
  Forall parses bs -> Forall (converts s) bs ->
  forall acc, exists out, listFederatedLoop s m bs acc = inl out.
Proof.
  induction bs as [|b rest IH]; intros P C acc; simpl.
  - now exists acc.
  - inversion P as [|? ? [t Pb] P']; subst. inversion C as [|? ? Cb C']; subst.
    unfold converts, isServerBundle in Cb. rewrite Pb in *.
    destruct (Z.eqb (spiffeid.Compare (td s) t) 0); [now apply IH|].
    destruct (Cb eq_refl) as [p Q]. rewrite Q. now apply IH.
Qed.

Lemma listFederatedLoop_converts (s : Service) (m : option types.BundleMask)
  (bs : list common.Bundle) :
  forall acc out,
    listFederatedLoop s m bs acc = inl out ->
    Forall parses bs /\ Forall (converts s) bs.
Proof.
  induction bs as [|b rest IH]; intros acc out; simpl.
  - split; constructor.
  - destruct (spiffeid.TrustDomainFromString (common.TrustDomainId b))
      as [t|e] eqn:Pb; [|discriminate].
    destruct (Z.eqb (spiffeid.Compare (td s) t) 0) eqn:C.
    + intros E. destruct (IH _ _ E) as [F G].
      split; constructor; trivial; [now exists t|].
      unfold converts, isServerBundle. rewrite Pb, C. discriminate.
    + destruct (api.BundleToProto (Some b)) as [p|e] eqn:Q; [|discriminate].
      intros E. destruct (IH _ _ E) as [F G].
      split; constructor; trivial; [now exists t|].
      intros _. now exists p.
Qed.

(** X12. [ListFederatedBundles] fails with Internal and with nothing else.
    It succeeds exactly when the datastore call succeeds, every bundle the
    datastore returns has a trust domain that parses, and every such bundle
    that is not the server's own converts; whether the server's own bundle
    converts does not matter, as it is left out before conversion. *)
Theorem ListFederatedBundles_outcome (s : Service)
  (req : bundlev1.ListFederatedBundlesRequest) (w : W) :
  (forall st,
     fst (ListFederatedBundles s req w) = inr st ->
     api.Code st = codes.Internal) /\
  ((exists resp, fst (ListFederatedBundles s req w) = inl resp) <->
   (exists d' dsResp,
      datastore.ListBundles (ds w)
        (datastore.mkListBundlesRequest
           (if Z.ltb 0 (bundlev1.PageSize req)
            then Some (datastore.mkPagination (bundlev1.PageToken req)
                         (bundlev1.PageSize req))
            else None))
      = (d', inl dsResp) /\
      Forall parses (datastore.Bundles dsResp) /\
      Forall (converts s) (datastore.Bundles dsResp))).
Proof.
  unfold ListFederatedBundles, bind, ret, dsListBundles.
  destruct (datastore.ListBundles (ds w) _) as [d' [dsResp|e]] eqn:L.
  - destruct (listFederatedLoop s (bundlev1.List_OutputMask req)
                (datastore.Bundles dsResp) []) as [out|e] eqn:Lp; simpl.
    + split; [discriminate|]. split.
      * intros _. exists d', dsResp.
        split; [reflexivity | eapply listFederatedLoop_converts; exact Lp].
      * intros _. eexists; reflexivity.
    + split.
      * intros st [= <-]. eapply listFederatedLoop_failure; exact Lp.
      * split; [intros [resp E]; discriminate E|].
        intros [d'' [dsResp' [[= _ <-] [P C]]]].
        destruct (listFederatedLoop_total (bundlev1.List_OutputMask req) P C [])
          as [out E]. congruence.
  - simpl. split.
    + intros st [= <-]. reflexivity.
    + split; [intros [resp E]; discriminate E|].
      intros [d'' [dsResp' [E _]]]. discriminate E.
Qed.

(** *** Publishing *)

(** X13. Whatever the request, [PublishJWTAuthority] consults the rate
    limiter first, for one token, and does at most one thing more: publish
    one key.  It never touches the datastore. *)
Theorem PublishJWTAuthority_limiter_first (s : Service)
  (req : bundlev1.PublishJWTAuthorityRequest) (w : W) :
  let w' := snd (PublishJWTAuthority s req w) in
  ds w' = ds w /\
  (calls w' = calls w ++ [EvRateLimit 1] \/
   exists key, calls w' = calls w ++ [EvRateLimit 1; EvPublishJWTKey key]).
Proof.
  unfold_handlers. repeat branch; simpl; split; trivial;
    try (left; reflexivity);
    right; eexists; rewrite <- app_assoc; reflexivity.
Qed.

(** X14. The limiter is consulted before the request is looked at: a
    request the limiter lets through but which has no JWT authority, or one
    that does not convert, is refused with InvalidArgument after the
    limiter call was made, and the publisher is not invoked. *)
Theorem PublishJWTAuthority_invalid_request (s : Service)
  (req : bundlev1.PublishJWTAuthorityRequest) (w : W) (l' : RL) :
  RateLimit (limiter w) 1 = (l', None) ->
  let w' := mkWorld (ds w) (up w) l' (calls w ++ [EvRateLimit 1]) in
  (bundlev1.JwtAuthority req = None ->
   PublishJWTAuthority s req w
   = (Some (inr (api.MakeErr codes.InvalidArgument "missing JWT authority"
                   None)), w')) /\
  (forall jwtAuthority err,
     bundlev1.JwtAuthority req = Some jwtAuthority ->
     api.ParseJWTAuthorities [jwtAuthority] = inr err ->
     PublishJWTAuthority s req w
     = (Some (inr (api.MakeErr codes.InvalidArgument "invalid JWT authority"
                     (Some err))), w')).
Proof.
  intros L w'. split.
  - intros A. unfold_handlers. now rewrite L, A.
  - intros a err A P. unfold_handlers. now rewrite L, A, P.
Qed.

(** X15. A request the limiter lets through and whose authority converts
    has the first converted key published, once; the response is the
    publisher's key set converted back, and a publisher failure is answered
    with Internal, wrapping the publisher's error. *)
Theorem PublishJWTAuthority_publishes (s : Service)
  (req : bundlev1.PublishJWTAuthorityRequest) (w : W) (l' : RL) (u' : UP)
  (jwtAuthority : types.JWTKey) (key0 : common.PublicKey)
  (keys : list common.PublicKey) (r : result (list common.PublicKey)) :
  RateLimit (limiter w) 1 = (l', None) ->
  bundlev1.JwtAuthority req = Some jwtAuthority ->
  api.ParseJWTAuthorities [jwtAuthority] = inl (key0 :: keys) ->
  PublishJWTKey (up w) key0 = (u', r) ->
  PublishJWTAuthority s req w
  = (Some (match r with
           | inl resp =>
               inl (bundlev1.mkPublishJWTAuthorityResponse
                      (api.PublicKeysToProto resp))
           | inr err =>
               inr (api.MakeErr codes.Internal "failed to publish JWT key"
                      (Some err))
           end),
     mkWorld (ds w) u' l' (calls w ++ [EvRateLimit 1; EvPublishJWTKey key0])).
Proof.
  intros L A P U. unfold_handlers. rewrite L, A, P. simpl. rewrite U.
  rewrite <- app_assoc. now destruct r.
Qed.

(** *** Appending *)

(** X16. [AppendBundle] only ever appends to the server's own bundle: it
    makes no collaborator call, or exactly one, a datastore [AppendBundle]
    for the server's trust-domain ID carrying all the converted authorities
    of the request. *)
Theorem AppendBundle_targets_own_bundle (s : Service)
  (req : bundlev1.AppendBundleRequest) (w : W) :
  onlyCalled [] w (snd (AppendBundle s req w)) \/
  exists x509Auth jwtAuth,
    api.ParseX509Authorities (bundlev1.X509Authorities req) = inl x509Auth /\
    api.ParseJWTAuthorities (bundlev1.JwtAuthorities req) = inl jwtAuth /\
    onlyCalled
      [EvAppendBundle
         (datastore.mkAppendBundleRequest
            (common.mkBundle (spiffeid.IDString (td s)) x509Auth jwtAuth 0))]
      w (snd (AppendBundle s req w)).
Proof.
  unfold_handlers. unfold onlyCalled.
  destruct (Nat.eqb _ 0 && Nat.eqb _ 0);
    [left; simpl; now rewrite app_nil_r|].
  destruct (api.ParseJWTAuthorities _) as [jwt|e] eqn:J;
    [|left; simpl; now rewrite app_nil_r].
  destruct (api.ParseX509Authorities _) as [x509|e] eqn:X;
    [|left; simpl; now rewrite app_nil_r].
  right. exists x509, jwt. split; [reflexivity|]. split; [reflexivity|].
  repeat branch; simpl; repeat split.
Qed.

(** X17. An [AppendBundle] request with at least one authority whose
    authorities do not convert is refused with InvalidArgument, wrapping the
    conversion error, and the world is left as it was.  The JWT authorities
    are converted first: when they fail, it is their error that is
    reported. *)
Theorem AppendBundle_unconvertible (s : Service)
  (req : bundlev1.AppendBundleRequest) (w : W) :
  (bundlev1.JwtAuthorities req <> [] \/ bundlev1.X509Authorities req <> []) ->
  (forall err,
     api.ParseJWTAuthorities (bundlev1.JwtAuthorities req) = inr err ->
     AppendBundle s req w
     = (inr (api.MakeErr codes.InvalidArgument
               "failed to convert JWT authority" (Some err)), w)) /\
  (forall jwtAuth err,
     api.ParseJWTAuthorities (bundlev1.JwtAuthorities req) = inl jwtAuth ->
     api.ParseX509Authorities (bundlev1.X509Authorities req) = inr err ->
     AppendBundle s req w
     = (inr (api.MakeErr codes.InvalidArgument
               "failed to convert X.509 authority" (Some err)), w)).
Proof.
  intros N.
  assert (E : Nat.eqb (List.length (bundlev1.JwtAuthorities req)) 0
              && Nat.eqb (List.length (bundlev1.X509Authorities req)) 0 = false).
  { destruct (bundlev1.JwtAuthorities req), (bundlev1.X509Authorities req);
      trivial. now destruct N as [N | N]; elim N. }
  split.
  - intros err J. unfold_handlers. now rewrite E, J.
  - intros jwt err J X. unfold_handlers. now rewrite E, J, X.
Qed.

(** *** Reading one bundle *)

(** X18. [GetBundle] reads the server's own bundle whatever the request:
    it makes one datastore call, a fetch of the server's trust-domain ID.
    It answers NotFound exactly when the datastore answers without a
    bundle. *)
Theorem GetBundle_fetches_own_bundle (s : Service)
  (req : bundlev1.GetBundleRequest) (w : W) :
  onlyCalled
    [EvFetchBundle (datastore.mkFetchBundleRequest (spiffeid.IDString (td s)))]
    w (snd (GetBundle s req w)) /\
  ((exists st, fst (GetBundle s req w) = inr st /\
               api.Code st = codes.NotFound) <->
   (exists d',
      datastore.FetchBundle (ds w)
        (datastore.mkFetchBundleRequest (spiffeid.IDString (td s)))
      = (d', inl (datastore.mkFetchBundleResponse None)))).
Proof.
  unfold_handlers. unfold onlyCalled.
  destruct (datastore.FetchBundle (ds w) _) as [d' [[[dsBundle|]]|e]]; simpl.
  - destruct (api.BundleToProto (Some dsBundle)); simpl;
      (split; [repeat split|]);
      (split; [intros [st [E C]]; try discriminate E;
               injection E as <-; discriminate C
              |intros [d'' E]; discriminate E]).
  - split; [repeat split|]. split.
    + intros _. now exists d'.
    + intros _. eexists. split; reflexivity.
  - split; [repeat split|]. split.
    + intros [st [[= <-] C]]. discriminate C.
    + intros [d'' E]. discriminate E.
Qed.

(** X19. For a trust domain that parses and is not the server's own,
    [GetFederatedBundle] makes one datastore call, a fetch of the canonical
    ID of the parsed trust domain (not of the identifier as requested), and
    answers NotFound exactly when the datastore answers without a bundle. *)
Theorem GetFederatedBundle_fetches_canonical_id (s : Service)
  (req : bundlev1.GetFederatedBundleRequest) (w : W)
  (td' : spiffeid.TrustDomain) :
  foreignTrustDomain s (bundlev1.TrustDomain req) = Some td' ->
  onlyCalled
    [EvFetchBundle (datastore.mkFetchBundleRequest (spiffeid.IDString td'))]
    w (snd (GetFederatedBundle s req w)) /\
  ((exists st, fst (GetFederatedBundle s req w) = inr st /\
               api.Code st = codes.NotFound) <->
   (exists d',
      datastore.FetchBundle (ds w)
        (datastore.mkFetchBundleRequest (spiffeid.IDString td'))
      = (d', inl (datastore.mkFetchBundleResponse None)))).
Proof.
  intros F. apply foreignTrustDomain_Some in F as [P N].
  unfold_handlers. unfold onlyCalled. rewrite P, (Compare_other N).
  destruct (datastore.FetchBundle (ds w) _) as [d' [[[dsBundle|]]|e]]; simpl.
  - destruct (api.BundleToProto (Some dsBundle)); simpl;
      (split; [repeat split|]);
      (split; [intros [st [E C]]; try discriminate E;
               injection E as <-; discriminate C
              |intros [d'' E]; discriminate E]).
  - split; [repeat split|]. split.
    + intros _. now exists d'.
    + intros _. eexists. split; reflexivity.
  - split; [repeat split|]. split.
    + intros [st [[= <-] C]]. discriminate C.
    + intros [d'' E]. discriminate E.
Qed.

End ServiceBehaviour.

(** * Further scenarios on the test doubles *)
Section MoreScenarios.
#[local] Existing Instance fake.dataStore.
#[local] Existing Instance fake.publisher.
#[local] Existing Instance fake.rateLimiter.
#[local] Existing Instance fake.parser.
#[local] Existing Instance fake.converters.

(** The empty identifier, in a get and in a delete. *)
Lemma malformed_trust_domain_rejected_witness :
  spiffeid.TrustDomainFromString EmptyString
  = inr (PlainError "trust domain is empty") /\
  GetFederatedBundle fake.server
    (bundlev1.mkGetFederatedBundleRequest EmptyString None) fake.twoBundles
  = (inr (api.MakeStatus codes.InvalidArgument
            "trust domain argument is not valid"
            (Some (PlainError "trust domain is empty"))), fake.twoBundles) /\
  deleteFederatedBundle fake.server EmptyString
    datastore.DeleteBundleRequest_RESTRICT fake.twoBundles
  = (bundlev1.mkDeleteResult
       (api.MakeStatus codes.InvalidArgument
          "trust domain argument is not valid"
          (Some (PlainError "trust domain is empty"))) EmptyString,
     fake.twoBundles).
Proof.
  split; [reflexivity|].
  pose proof (malformed_trust_domain_rejected fake.server fake.twoBundles
                EmptyString eq_refl) as [G [_ [_ [_ D]]]].
  split; [exact (G None) | exact (D datastore.DeleteBundleRequest_RESTRICT)].
Defined.

(** A bundle whose JWT key has no key ID, in a create and in a set. *)
Lemma unconvertible_bundle_rejected_witness :
  foreignTrustDomain fake.server (types.TrustDomain fake.unconvertible)
  = Some (spiffeid.mkTrustDomain "other.org") /\
  api.ProtoToBundle fake.unconvertible = inr (PlainError "missing key ID") /\
  createFederatedBundle fake.server fake.unconvertible None fake.twoBundles
  = (bundlev1.mkBundleResult
       (api.MakeStatus codes.InvalidArgument "failed to convert bundle"
          (Some (PlainError "missing key ID"))) None, fake.twoBundles) /\
  setFederatedBundle fake.server fake.unconvertible None fake.twoBundles
  = (bundlev1.mkBundleResult
       (api.MakeStatus codes.InvalidArgument "failed to convert bundle"
          (Some (PlainError "missing key ID"))) None, fake.twoBundles).
Proof.
  split; [reflexivity|]. split; [reflexivity|].
  pose proof (unconvertible_bundle_rejected fake.server fake.twoBundles
                fake.unconvertible (td' := spiffeid.mkTrustDomain "other.org")
                eq_refl eq_refl) as [C [_ S]].
  split; [exact (C None) | exact (S None)].
Defined.


(** A create batch with an existing, a new and the server's own domain. *)
Lemma batch_bundle_iff_ok_witness :
  exists resp,
    fst (BatchCreateFederatedBundle fake.server
           (bundlev1.mkBatchCreateRequest
              [fake.protoBundleOf "other.org"; fake.protoBundleOf "new.org";
               fake.protoBundleOf "example.org"] None) fake.twoBundles)
    = inl resp /\
    Forall bundleIffOK (bundlev1.Create_Results resp).
Proof.
  eexists. split; [reflexivity|].
  apply (proj1 (batch_bundle_iff_ok fake.server fake.twoBundles)
           (bundlev1.mkBatchCreateRequest
              [fake.protoBundleOf "other.org"; fake.protoBundleOf "new.org";
               fake.protoBundleOf "example.org"] None)).
  reflexivity.
Defined.

(** A delete batch naming a domain with its scheme, an unknown one and a
    malformed one. *)
Lemma BatchDeleteFederatedBundle_echoes_trust_domains_witness :
  exists resp,
    fst (BatchDeleteFederatedBundle fake.server
           (bundlev1.mkBatchDeleteRequest
              ["spiffe://other.org"; "missing.org"; EmptyString]
              bundlev1.BatchDeleteFederatedBundleRequest_DELETE)
           fake.twoBundles)
    = inl resp /\
    map bundlev1.Delete_TrustDomain (bundlev1.Delete_Results resp)
    = ["spiffe://other.org"; "missing.org"; EmptyString].
Proof.
  eexists. split; [reflexivity|].
  apply (BatchDeleteFederatedBundle_echoes_trust_domains fake.server
           (bundlev1.mkBatchDeleteRequest
              ["spiffe://other.org"; "missing.org"; EmptyString]
              bundlev1.BatchDeleteFederatedBundleRequest_DELETE)
           fake.twoBundles).
  reflexivity.
Defined.

(** Three deletions, split after the first. *)
Lemma batch_split_witness :
  declaredMode bundlev1.BatchDeleteFederatedBundleRequest_DELETE /\
  runsInTwoCalls
    (fun l => BatchDeleteFederatedBundle fake.server
                (bundlev1.mkBatchDeleteRequest l
                   bundlev1.BatchDeleteFederatedBundleRequest_DELETE))
    bundlev1.mkBatchDeleteResponse
    ["other.org"] ["other.org"; "example.org"] fake.twoBundles.
Proof.
  assert (M : declaredMode bundlev1.BatchDeleteFederatedBundleRequest_DELETE)
    by (right; right; reflexivity).
  split; [exact M|].
  exact (proj2 (proj2 (proj2 (batch_split fake.server fake.twoBundles)))
           ["other.org"] ["other.org"; "example.org"] _ M).
Defined.

(** A page of ten with a token, and a page size of zero with a token. *)
Lemma ListFederatedBundles_forwards_pagination_witness :
  ((0 < 10)%Z /\
   onlyCalled
     [EvListBundles
        (datastore.mkListBundlesRequest (Some (datastore.mkPagination "tok" 10)))]
     fake.twoBundles
     (snd (ListFederatedBundles fake.server
             (bundlev1.mkListFederatedBundlesRequest 10 "tok" None)
             fake.twoBundles))) /\
  ((0 <= 0)%Z /\
   onlyCalled [EvListBundles (datastore.mkListBundlesRequest None)]
     fake.twoBundles
     (snd (ListFederatedBundles fake.server
             (bundlev1.mkListFederatedBundlesRequest 0 "tok" None)
             fake.twoBundles))).
Proof.
  split.
  - split; [reflexivity|].
    exact (proj1 (ListFederatedBundles_forwards_pagination fake.server
                    (bundlev1.mkListFederatedBundlesRequest 10 "tok" None)
                    fake.twoBundles) eq_refl).
  - assert (Z0 : (0 <= 0)%Z) by discriminate.
    split; [exact Z0|].
    exact (proj2 (ListFederatedBundles_forwards_pagination fake.server
                    (bundlev1.mkListFederatedBundlesRequest 0 "tok" None)
                    fake.twoBundles) Z0).
Defined.

(** The listing succeeds on a well-formed datastore and fails with Internal
    on the corrupted one. *)
Lemma ListFederatedBundles_outcome_witness :
  (exists resp,
     fst (ListFederatedBundles fake.server
            (bundlev1.mkListFederatedBundlesRequest 0 EmptyString None)
            fake.twoBundles) = inl resp) /\
  (exists st,
     fst (ListFederatedBundles fake.server
            (bundlev1.mkListFederatedBundlesRequest 0 EmptyString None)
            fake.corrupted) = inr st /\
     api.Code st = codes.Internal).
Proof.
  split.
  - apply (proj2 (ListFederatedBundles_outcome fake.server
                    (bundlev1.mkListFederatedBundlesRequest 0 EmptyString None)
                    fake.twoBundles)).
    eexists. eexists. split; [reflexivity|]. split.
    + repeat constructor; eexists; reflexivity.
    + repeat constructor; intros _; eexists; reflexivity.
  - eexists. split; [reflexivity|].
    apply (proj1 (ListFederatedBundles_outcome fake.server
                    (bundlev1.mkListFederatedBundlesRequest 0 EmptyString None)
                    fake.corrupted)).
    reflexivity.
Defined.

(** A publish request without an authority spends the last token. *)
Lemma PublishJWTAuthority_invalid_request_witness :
  RateLimit (limiter fake.twoBundles) 1 = (0%Z, None) /\
  PublishJWTAuthority fake.server (bundlev1.mkPublishJWTAuthorityRequest None)
    fake.twoBundles
  = (Some (inr (api.MakeErr codes.InvalidArgument "missing JWT authority" None)),
     mkWorld (ds fake.twoBundles) (up fake.twoBundles) 0%Z
       (calls fake.twoBundles ++ [EvRateLimit 1])) /\
  PublishJWTAuthority fake.server
    (bundlev1.mkPublishJWTAuthorityRequest
       (Some (types.mkJWTKey [Byte.x01] EmptyString 100)))
    fake.twoBundles
  = (Some (inr (api.MakeErr codes.InvalidArgument "invalid JWT authority"
                  (Some (PlainError "missing key ID")))),
     mkWorld (ds fake.twoBundles) (up fake.twoBundles) 0%Z
       (calls fake.twoBundles ++ [EvRateLimit 1])).
Proof.
  split; [reflexivity|]. split.
  - exact (proj1 (PublishJWTAuthority_invalid_request fake.server
                    (bundlev1.mkPublishJWTAuthorityRequest None)
                    fake.twoBundles eq_refl) eq_refl).
  - exact (proj2 (PublishJWTAuthority_invalid_request fake.server
                    (bundlev1.mkPublishJWTAuthorityRequest
                       (Some (types.mkJWTKey [Byte.x01] EmptyString 100)))
                    fake.twoBundles eq_refl)
             (types.mkJWTKey [Byte.x01] EmptyString 100)
             (PlainError "missing key ID") eq_refl eq_refl).
Defined.

(** A publish request that goes through. *)
Lemma PublishJWTAuthority_publishes_witness :
  RateLimit (limiter fake.twoBundles) 1 = (0%Z, None) /\
  PublishJWTAuthority fake.server
    (bundlev1.mkPublishJWTAuthorityRequest
       (Some (types.mkJWTKey [Byte.x01] "key1" 100)))
    fake.twoBundles
  = (Some (inl (bundlev1.mkPublishJWTAuthorityResponse
                  [types.mkJWTKey [Byte.x01] "key1" 100])),
     mkWorld (ds fake.twoBundles) [common.mkPublicKey [Byte.x01] "key1" 100] 0%Z
       (calls fake.twoBundles
        ++ [EvRateLimit 1;
            EvPublishJWTKey (common.mkPublicKey [Byte.x01] "key1" 100)])).
Proof.
  split; [reflexivity|].
  exact (PublishJWTAuthority_publishes fake.server
           (bundlev1.mkPublishJWTAuthorityRequest
              (Some (types.mkJWTKey [Byte.x01] "key1" 100)))
           fake.twoBundles (keys := [])
           (r := inl [common.mkPublicKey [Byte.x01] "key1" 100])
           eq_refl eq_refl eq_refl eq_refl).
Defined.

(** Appending a JWT key without key ID, and an empty certificate. *)
Lemma AppendBundle_unconvertible_witness :
  ([types.mkJWTKey [Byte.x01] EmptyString 100] <> [] /\
   AppendBundle (converters := fake.strictConverters) fake.server
     (bundlev1.mkAppendBundleRequest [types.mkX509Certificate []]
        [types.mkJWTKey [Byte.x01] EmptyString 100] None) fake.twoBundles
   = (inr (api.MakeErr codes.InvalidArgument "failed to convert JWT authority"
             (Some (PlainError "missing key ID"))), fake.twoBundles)) /\
  ([types.mkX509Certificate []] <> [] /\
   AppendBundle (converters := fake.strictConverters) fake.server
     (bundlev1.mkAppendBundleRequest [types.mkX509Certificate []] [] None)
     fake.twoBundles
   = (inr (api.MakeErr codes.InvalidArgument "failed to convert X.509 authority"
             (Some (PlainError "empty certificate"))), fake.twoBundles)).
Proof.
  assert (J : [types.mkJWTKey [Byte.x01] EmptyString 100] <> [])
    by discriminate.
  assert (X : [types.mkX509Certificate []] <> []) by discriminate.
  split.
  - split; [exact J|].
    exact (proj1 (AppendBundle_unconvertible
                    (converters := fake.strictConverters) fake.server
                    (bundlev1.mkAppendBundleRequest [types.mkX509Certificate []]
                       [types.mkJWTKey [Byte.x01] EmptyString 100] None)
                    fake.twoBundles (or_introl J))
             (PlainError "missing key ID") eq_refl).
  - split; [exact X|].
    exact (proj2 (AppendBundle_unconvertible
                    (converters := fake.strictConverters) fake.server
                    (bundlev1.mkAppendBundleRequest [types.mkX509Certificate []]
                       [] None)
                    fake.twoBundles (or_intror X))
             [] (PlainError "empty certificate") eq_refl eq_refl).
Defined.

(** The server's bundle is missing from an empty datastore. *)
Lemma GetBundle_fetches_own_bundle_witness :
  onlyCalled
    [EvFetchBundle (datastore.mkFetchBundleRequest "spiffe://example.org")]
    fake.empty
    (snd (GetBundle fake.server (bundlev1.mkGetBundleRequest None) fake.empty)) /\
  exists st,
    fst (GetBundle fake.server (bundlev1.mkGetBundleRequest None) fake.empty)
    = inr st /\ api.Code st = codes.NotFound.
Proof.
  pose proof (GetBundle_fetches_own_bundle fake.server
                (bundlev1.mkGetBundleRequest None) fake.empty) as [C N].
  split; [exact C|].
  apply (proj2 N). eexists. reflexivity.
Defined.

(** A get for [other.org] fetches [spiffe://other.org]; one for an unknown
    domain answers NotFound. *)
Lemma GetFederatedBundle_fetches_canonical_id_witness :
  foreignTrustDomain fake.server "other.org"
  = Some (spiffeid.mkTrustDomain "other.org") /\
  onlyCalled
    [EvFetchBundle (datastore.mkFetchBundleRequest "spiffe://other.org")]
    fake.twoBundles
    (snd (GetFederatedBundle fake.server
            (bundlev1.mkGetFederatedBundleRequest "other.org" None)
            fake.twoBundles)) /\
  exists st,
    fst (GetFederatedBundle fake.server
           (bundlev1.mkGetFederatedBundleRequest "missing.org" None)
           fake.twoBundles)
    = inr st /\ api.Code st = codes.NotFound.
Proof.
  split; [reflexivity|]. split.
  - exact (proj1 (GetFederatedBundle_fetches_canonical_id fake.server
                    (bundlev1.mkGetFederatedBundleRequest "other.org" None)
                    fake.twoBundles (td' := spiffeid.mkTrustDomain "other.org")
                    eq_refl)).
  - assert (F : foreignTrustDomain fake.server "missing.org"
                = Some (spiffeid.mkTrustDomain "missing.org")) by reflexivity.
    pose proof (GetFederatedBundle_fetches_canonical_id fake.server
                  (bundlev1.mkGetFederatedBundleRequest "missing.org" None)
                  fake.twoBundles F) as [_ N].
    apply (proj2 N). eexists. reflexivity.
Defined.

End MoreScenarios.
